(** * pymdoccbor.mdoc.issuer : the mdoc issuance pipeline

    A shallow embedding of [MdocCborIssuer] (src/pymdoccbor/mdoc/issuer.py):
    construction with key normalisation, [new], [dump] and [dumps].

    Python values are an inductive type, dictionaries are association lists
    in insertion order, exceptions are a sum type, and the methods run in a
    state-and-exception monad over the issuer object and the state of the
    outside world the MSO collaborator works on. *)

From Stdlib Require Import ZArith List Bool Lia.
From Stdlib.Strings Require Import String Ascii Byte.
Import ListNotations.
Open Scope string_scope.
Open Scope list_scope.
Open Scope Z_scope.
Set Warnings "-register-all".

(** ** Python values *)

(** Dictionary keys: the hashable scalars CBOR maps of an mdoc are keyed by
    (text strings for names and name spaces, integers for digest ids). *)
Inductive pykey : Type :=
| KInt (z : Z)
| KStr (s : string)
| KBytes (b : list byte).

(** Values. A [dict] keeps its items in insertion order, so it is a list of
    items; a real dict never holds one key twice ([dict_wf] below).
    [PTag] is [cbor2.CBORTag(tag, value)]. *)
Inductive pyval : Type :=
| PNone
| PBool (b : bool)
| PInt (z : Z)
| PStr (s : string)
| PBytes (b : list byte)
| PList (l : list pyval)
| PDict (d : list (pykey * pyval))
| PTag (tag : Z) (value : pyval).

Definition pydict : Type := list (pykey * pyval).

Definition key_val (k : pykey) : pyval :=
  match k with
  | KInt z => PInt z
  | KStr s => PStr s
  | KBytes b => PBytes b
  end.

Definition byte_eq_dec (a b : byte) : {a = b} + {a <> b}.
Proof.
  destruct (Byte.eqb a b) eqn:E.
  - left. now apply Byte.byte_dec_bl.
  - right. intros ->. rewrite (Byte.byte_dec_lb eq_refl) in E. discriminate.
Defined.

Definition pykey_eq_dec (a b : pykey) : {a = b} + {a <> b}.
Proof.
  decide equality.
  - apply Z.eq_dec.
  - apply string_dec.
  - apply (list_eq_dec byte_eq_dec).
Defined.

Definition pykey_eqb (a b : pykey) : bool :=
  if pykey_eq_dec a b then true else false.

Definition dict_keys (d : pydict) : list pykey := map fst d.

(** What every Python dict satisfies: no key occurs twice. *)
Definition dict_wf (d : pydict) : Prop := NoDup (dict_keys d).

(** [d.get(k)] as an option. *)
Fixpoint dict_get (d : pydict) (k : pykey) : option pyval :=
  match d with
  | [] => None
  | (k', v) :: rest => if pykey_eqb k' k then Some v else dict_get rest k
  end.

(** [d[k] = v]: an existing key keeps its position, a new key goes last. *)
Fixpoint dict_set (d : pydict) (k : pykey) (v : pyval) : pydict :=
  match d with
  | [] => [(k, v)]
  | (k', v') :: rest =>
      if pykey_eqb k' k then (k', v) :: rest else (k', v') :: dict_set rest k v
  end.

(** ** Serialisation: [cbor2.dumps] and [binascii.hexlify]

    Both are library functions the issuer calls. [cbor2.dumps] is the
    default (non-canonical) encoder of RFC 8949: a head of major type and
    argument in the shortest of the five widths, definite lengths, map items
    in the dict's own order, a tag as its head followed by the encoded
    value. *)

Definition byte_of_Z (z : Z) : byte :=
  match Byte.of_N (Z.to_N (z mod 256)) with
  | Some b => b
  | None => x00
  end.

(** [n] bytes of [v], most significant first ([struct.pack(">...")],
    [int.to_bytes(n, "big")]). *)
Fixpoint be_bytes (n : nat) (v : Z) : list byte :=
  match n with
  | O => []
  | S k => byte_of_Z (Z.shiftr v (8 * Z.of_nat k)) :: be_bytes k v
  end.

Definition encode_length (major_tag : Z) (length : Z) : list byte :=
  let major_tag := Z.shiftl major_tag 5 in
  if length <? 24 then [byte_of_Z (Z.lor major_tag length)]
  else if length <? 256 then byte_of_Z (Z.lor major_tag 24) :: be_bytes 1 length
  else if length <? 65536 then byte_of_Z (Z.lor major_tag 25) :: be_bytes 2 length
  else if length <? 4294967296 then byte_of_Z (Z.lor major_tag 26) :: be_bytes 4 length
  else byte_of_Z (Z.lor major_tag 27) :: be_bytes 8 length.

Definition len {A : Type} (l : list A) : Z := Z.of_nat (List.length l).

Definition encode_bytes (b : list byte) : list byte :=
  encode_length 2 (len b) ++ b.

Definition bit_length (v : Z) : Z :=
  if v =? 0 then 0 else Z.log2 (Z.abs v) + 1.

(** Integers of 65 bits and more go out as a bignum: tag 2 or 3 around the
    magnitude's bytes. *)
Definition encode_int (value : Z) : list byte :=
  if (value >=? 18446744073709551616) || (value <? -18446744073709551616) then
    let major_type := if value >=? 0 then 2 else 3 in
    let value := if value >=? 0 then value else - value - 1 in
    let payload := be_bytes (Z.to_nat ((bit_length value + 7) / 8)) value in
    encode_length 6 major_type ++ encode_bytes payload
  else if value >=? 0 then encode_length 0 value
  else encode_length 1 (- (value + 1)).

Definition encode_string (s : string) : list byte :=
  let encoded := list_byte_of_string s in
  encode_length 3 (len encoded) ++ encoded.

Definition encode_key (k : pykey) : list byte :=
  match k with
  | KInt z => encode_int z
  | KStr s => encode_string s
  | KBytes b => encode_bytes b
  end.

Fixpoint cbor2_dumps (v : pyval) : list byte :=
  match v with
  | PNone => [xf6]
  | PBool true => [xf5]
  | PBool false => [xf4]
  | PInt z => encode_int z
  | PStr s => encode_string s
  | PBytes b => encode_bytes b
  | PList l => encode_length 4 (len l) ++ flat_map cbor2_dumps l
  | PDict d =>
      encode_length 5 (len d)
      ++ flat_map (fun kv => let '(k, x) := kv in encode_key k ++ cbor2_dumps x) d
  | PTag tag value => encode_length 6 tag ++ cbor2_dumps value
  end.

(** [binascii.hexlify]: two lowercase hexadecimal digits per byte, high
    nibble first. *)
Definition hex_digit (n : Z) : byte :=
  byte_of_Z (if n <? 10 then 48 + n else 87 + n).

Definition byte_val (b : byte) : Z := Z.of_N (Byte.to_N b).

Definition hexlify (data : list byte) : list byte :=
  flat_map (fun b => [hex_digit (Z.shiftr (byte_val b) 4);
                      hex_digit (Z.land (byte_val b) 15)]) data.

(** The digits [hexlify] may produce: ["0123456789abcdef"]. *)
Definition lower_hex_digits : list byte := list_byte_of_string "0123456789abcdef".

Definition is_lower_hex (c : byte) : bool :=
  existsb (Byte.eqb c) lower_hex_digits.

(** [binascii.unhexlify], to state that the hexadecimal text is the same
    bytes. *)
Definition hex_value (c : byte) : option Z :=
  let n := byte_val c in
  if (48 <=? n) && (n <=? 57) then Some (n - 48)
  else if (97 <=? n) && (n <=? 102) then Some (n - 87)
  else if (65 <=? n) && (n <=? 70) then Some (n - 55)
  else None.

Fixpoint unhexlify (text : list byte) : option (list byte) :=
  match text with
  | [] => Some []
  | hi :: lo :: rest =>
      match hex_value hi, hex_value lo, unhexlify rest with
      | Some h, Some l, Some r => Some (byte_of_Z (16 * h + l) :: r)
      | _, _, _ => None
      end
  | _ => None
  end.

(** ** A stand-in for the collaborators *)

(** Modelled from the spec: pycose and the MSO issuer
    (pymdoccbor.mso.issuer) are not among the sources. This is enough of
    them to run the issuer on concrete inputs, after the spec's data model:
    the disclosure map takes a name space to a mapping from digest
    identifier to the attribute the digest covers. Keys are a class flag
    and their encoded bytes, the world is a counter of calls, an MSO issuer
    object is its disclosure map (digest ids counted from 0 in every name
    space), and attribute data that is not a mapping of mappings is
    refused. *)
Module Stub.

Definition ExtExn : Type := string.
Definition K : Type := (bool * list byte)%type.
Definition World : Type := Z.
Definition MsoIssuerObj : Type := pyval.
Definition MsoObj : Type := list byte.

Definition is_EC2Key (k : K) : bool := fst k.

Definition CoseKey_from_dict (d : pydict) : ExtExn + K :=
  match dict_get d (KInt 1) with
  | Some (PInt kty) => inr (kty =? 2, cbor2_dumps (PDict d))
  | _ => inl "COSE key without a key type"
  end.

Definition CoseKey_encode (k : K) : ExtExn + list byte := inr (snd k).

Definition CoseKey_decode (b : list byte) : ExtExn + K :=
  match b with
  | [] => inl "nothing to decode"
  | _ => inr (true, b)
  end.

Fixpoint digests (digest_cnt : Z) (attrs : pydict) : pydict :=
  match attrs with
  | [] => []
  | kv :: rest => (KInt digest_cnt, PDict [kv]) :: digests (digest_cnt + 1) rest
  end.

(** The disclosure map of attribute data whose name spaces all hold
    mappings; there is none for other data. *)
Fixpoint disclose (d : pydict) : option pydict :=
  match d with
  | [] => Some []
  | (ns, PDict attrs) :: rest =>
      match disclose rest with
      | Some dm => Some ((ns, PDict (digests 0 attrs)) :: dm)
      | None => None
      end
  | _ :: _ => None
  end.

Definition MsoIssuer (data : pyval) (key : K) (w : World)
  : (ExtExn + MsoIssuerObj) * World :=
  match data with
  | PDict d =>
      match disclose d with
      | Some dm => (inr (PDict dm), w + 1)
      | None => (inl "attribute data must be a mapping", w + 1)
      end
  | _ => (inl "attribute data must be a mapping", w + 1)
  end.

Definition MsoIssuer_sign (msoi : MsoIssuerObj) (w : World)
  : (ExtExn + MsoObj) * World :=
  (inr (cbor2_dumps msoi), w + 1).

Definition MsoIssuer_disclosure_map (msoi : MsoIssuerObj) (w : World) : pyval :=
  msoi.

Definition Mso_encode (mso : MsoObj) (w : World) : (ExtExn + pyval) * World :=
  (inr (PBytes mso), w).

(** A key as a caller would pass it: COSE parameters of an EC2 key. *)
Definition ec2_params : pydict :=
  [(KInt 1, PInt 2); (KInt (-1), PInt 1); (KInt (-4), PBytes [x2a])].

(** The attribute data of the mDL example. *)
Definition mdl_namespaces : pydict :=
  [(KStr "org.iso.18013.5.1",
    PDict [(KStr "given_name", PStr "ALICE");
           (KStr "family_name", PStr "SMITH")])].

Definition mdl_data : pyval := PDict mdl_namespaces.

End Stub.

(** ** Exceptions *)

Section Issuer.

(** Exceptions raised by the third-party and collaborator code (pycose key
    parsing, the MSO issuer); the issuer never looks inside them. *)
Variable ExtExn : Type.

(** An exception carries where it was raised: by the interpreter on a failed
    lookup of this module ([KeyError], [TypeError], [AttributeError]), by the
    constructor's own [raise] ([MissingPrivateKey]), or from outside
    ([External]). *)
Inductive exn : Type :=
| KeyError (k : pykey)
| TypeError
| AttributeError
| MissingPrivateKey (msg : string)
| External (e : ExtExn).

Inductive result (A : Type) : Type :=
| Ok (a : A)
| Raise (e : exn).
Arguments Ok {A} a.
Arguments Raise {A} e.

Definition of_ext {A : Type} (r : ExtExn + A) : result A :=
  match r with
  | inl e => Raise (External e)
  | inr a => Ok a
  end.

(** [v["k"]], a subscript by a string: a dict looks the key up, every other
    value of [pyval] refuses it (a list or a string wants an integer, the
    others have no subscript). *)
Definition py_getitem (v : pyval) (k : string) : result pyval :=
  match v with
  | PDict d =>
      match dict_get d (KStr k) with
      | Some x => Ok x
      | None => Raise (KeyError (KStr k))
      end
  | _ => Raise TypeError
  end.

(** [v.items()]: only a dict has the method. *)
Definition py_items (v : pyval) : result (list (pykey * pyval)) :=
  match v with
  | PDict d => Ok d
  | _ => Raise AttributeError
  end.

(** [for x in v]: the elements of a list, the keys of a dict, the characters
    of a string, the integers of a byte string (strings are taken as ASCII
    text, one character per byte). *)
Definition py_iter (v : pyval) : result (list pyval) :=
  match v with
  | PList l => Ok l
  | PDict d => Ok (map key_val (dict_keys d))
  | PStr s => Ok (map (fun c => PStr (String c EmptyString)) (list_ascii_of_string s))
  | PBytes b => Ok (map (fun x => PInt (Z.of_N (Byte.to_N x))) b)
  | _ => Raise TypeError
  end.


Definition bind_result {A B : Type} (m : result A) (k : A -> result B) : result B :=
  match m with
  | Ok a => k a
  | Raise e => Raise e
  end.

Notation "x <~ m ;; k" := (bind_result m (fun x => k))
  (at level 61, m at next level, right associativity).

(** ** The collaborators *)

(** pycose key objects: the instances of [CoseKey], which include those of
    its subclass [EC2Key]. *)
Variable K : Type.
Variable is_EC2Key : K -> bool.
Variable CoseKey_from_dict : pydict -> ExtExn + K.
Variable CoseKey_encode : K -> ExtExn + list byte.
Variable CoseKey_decode : list byte -> ExtExn + K.

(** The MSO issuer (pymdoccbor.mso.issuer) draws salts and reads the clock:
    its calls take the state of the outside world and give it back. *)
Variable World : Type.
Variable MsoIssuerObj : Type.
Variable MsoObj : Type.
Variable MsoIssuer : pyval -> K -> World -> (ExtExn + MsoIssuerObj) * World.
Variable MsoIssuer_sign : MsoIssuerObj -> World -> (ExtExn + MsoObj) * World.
Variable MsoIssuer_disclosure_map : MsoIssuerObj -> World -> pyval.
Variable Mso_encode : MsoObj -> World -> (ExtExn + pyval) * World.

(** What a caller may pass where a key is expected: a plain value or a key
    object. *)
Inductive pyobj : Type :=
| Val (v : pyval)
| KeyObj (k : K).

(** ** The issuer object and the monad of its methods *)

Record MdocCborIssuer : Type := mkIssuer {
  version : string;
  status : Z;
  private_key : K;
  signed : pyval
}.

Record State : Type := mkState {
  self : MdocCborIssuer;
  world : World
}.

Definition M (A : Type) : Type := State -> result A * State.

Definition ret {A : Type} (a : A) : M A := fun s => (Ok a, s).

Definition bind {A B : Type} (m : M A) (k : A -> M B) : M B :=
  fun s =>
    match m s with
    | (Ok a, s') => k a s'
    | (Raise e, s') => (Raise e, s')
    end.

Notation "x <- m ;; k" := (bind m (fun x => k))
  (at level 61, m at next level, right associativity).

Definition lift {A : Type} (r : result A) : M A := fun s => (r, s).

(** [self.attr] *)
Definition get_attr {A : Type} (attr : MdocCborIssuer -> A) : M A :=
  fun s => (Ok (attr (self s)), s).

Definition set_signed (v : pyval) : M unit :=
  fun s =>
    (Ok tt,
     mkState (mkIssuer (version (self s)) (status (self s))
                       (private_key (self s)) v)
             (world s)).

(** A call into the MSO issuer. *)
Definition ext {A : Type} (f : World -> (ExtExn + A) * World) : M A :=
  fun s => let (r, w) := f (world s) in (of_ext r, mkState (self s) w).

(** An attribute read on a collaborator object. *)
Definition read {A : Type} (f : World -> A) : M A :=
  fun s => (Ok (f (world s)), s).

(** ** [MdocCborIssuer.__init__] *)

Definition init (private_key : pyobj) : result MdocCborIssuer :=
  let version := "1.0" in
  let status := 0 in
  key <~ match private_key with
         | Val (PDict d) => of_ext (CoseKey_from_dict d)
         | KeyObj k =>
             if is_EC2Key k then
               ec2_encoded <~ of_ext (CoseKey_encode k) ;;
               ec2_decoded <~ of_ext (CoseKey_decode ec2_encoded) ;;
               Ok ec2_decoded
             else Ok k
         | Val _ => Raise (MissingPrivateKey "You must provide a private key")
         end ;;
  Ok (mkIssuer version status key (PDict [])).

(** ** [MdocCborIssuer.new] *)

(** [[cbor2.CBORTag(24, value={k: v}) for k, v in dgst.items()]] *)
Definition tagged_items (items : list (pykey * pyval)) : list pyval :=
  map (fun kv => let '(k, v) := kv in PTag 24 (PDict [(k, v)])) items.

(** [{ns: [...] for ns, dgst in msoi.disclosure_map.items()}], item by item
    into the dict under construction. *)
Fixpoint nameSpaces_of (items : list (pykey * pyval)) (acc : pydict) : result pydict :=
  match items with
  | [] => Ok acc
  | (ns, dgst) :: rest =>
      entries <~ py_items dgst ;;
      nameSpaces_of rest (dict_set acc ns (PList (tagged_items entries)))
  end.

(** The body of [for doc in data], up to the [document] it appends. *)
Definition make_document (doc : pyval) : M pyval :=
  data <- lift (py_getitem doc "data") ;;
  key <- get_attr private_key ;;
  msoi <- ext (MsoIssuer data key) ;;
  mso <- ext (MsoIssuer_sign msoi) ;;
  docType <- lift (py_getitem doc "doctype") ;;
  disclosure_map <- read (MsoIssuer_disclosure_map msoi) ;;
  items <- lift (py_items disclosure_map) ;;
  nameSpaces <- lift (nameSpaces_of items []) ;;
  issuerAuth <- ext (Mso_encode mso) ;;
  ret (PDict [(KStr "docType", docType);
              (KStr "issuerSigned",
               PDict [(KStr "nameSpaces", PDict nameSpaces);
                      (KStr "issuerAuth", issuerAuth)])]).

Fixpoint for_docs (data : list pyval) (documents : list pyval) : M (list pyval) :=
  match data with
  | [] => ret documents
  | doc :: rest =>
      document <- make_document doc ;;
      for_docs rest (documents ++ [document])
  end.

Definition normalize_devicekeyinfo (devicekeyinfo : pyobj) : result pyobj :=
  match devicekeyinfo with
  | Val (PDict d) => k <~ of_ext (CoseKey_from_dict d) ;; Ok (KeyObj k)
  | other => Ok other
  end.

(** Spec, data model: the IssuanceEnvelope
    [{version, documents, status}], against which what [new] builds is
    compared. *)
Definition envelope (version : string) (documents : list pyval) (status : Z) : pyval :=
  PDict [(KStr "version", PStr version);
         (KStr "documents", PList documents);
         (KStr "status", PInt status)].

(** [if isinstance(data, dict): data = [{"doctype": doctype, "data": data}]] *)
Definition normalize_data (data : pyval) (doctype : pyval) : pyval :=
  match data with
  | PDict _ => PList [PDict [(KStr "doctype", doctype); (KStr "data", data)]]
  | _ => data
  end.

(** The default of the optional parameter: [doctype=None]. *)
Definition doctype_arg (doctype : option pyval) : pyval :=
  match doctype with
  | Some v => v
  | None => PNone
  end.

Definition new (data : pyval) (devicekeyinfo : pyobj) (doctype : option pyval)
  : M pyval :=
  let doctype := doctype_arg doctype in
  devicekeyinfo <- lift (normalize_devicekeyinfo devicekeyinfo) ;;
  let data := normalize_data data doctype in
  docs <- lift (py_iter data) ;;
  documents <- for_docs docs [] ;;
  version <- get_attr version ;;
  status <- get_attr status ;;
  let signed := PDict [(KStr "version", PStr version);
                       (KStr "documents", PList documents);
                       (KStr "status", PInt status)] in
  _ <- set_signed signed ;;
  ret signed.

(** ** [MdocCborIssuer.dump] and [MdocCborIssuer.dumps] *)

Definition dump : M (list byte) :=
  signed <- get_attr signed ;;
  ret (cbor2_dumps signed).

Definition dumps : M (list byte) :=
  signed <- get_attr signed ;;
  ret (hexlify (cbor2_dumps signed)).

(** ** Vocabulary of the statements *)

(** A disclosure map whose name spaces all hold dicts, as the items
    [new] iterates over. *)
Definition as_items (dmap : list (pykey * pydict)) : pydict :=
  map (fun nd => let '(ns, dgst) := nd in (ns, PDict dgst)) dmap.

(** The [nameSpaces] the issuer emits for it: per name space, in the same
    order, one tag-24 value per digest around the one-item dict itself. *)
Definition reencode (dmap : list (pykey * pydict)) : pydict :=
  map (fun nd => let '(ns, dgst) := nd in
                 (ns, PList (map (fun kv => PTag 24 (PDict [kv])) dgst))) dmap.

Definition document_of (docType : pyval) (nameSpaces : pydict) (issuerAuth : pyval)
  : pyval :=
  PDict [(KStr "docType", docType);
         (KStr "issuerSigned",
          PDict [(KStr "nameSpaces", PDict nameSpaces);
                 (KStr "issuerAuth", issuerAuth)])].

Definition with_signed (s : State) (v : pyval) : State :=
  mkState (mkIssuer (version (self s)) (status (self s)) (private_key (self s)) v)
          (world s).

(** The states an issuer goes through: built by the constructor, then any
    calls of its methods, while the world moves on between them. *)
Inductive reachable : State -> Prop :=
| reach_init : forall private_key this w,
    init private_key = Ok this -> reachable (mkState this w)
| reach_new : forall s data devicekeyinfo doctype r s',
    reachable s -> new data devicekeyinfo doctype s = (r, s') -> reachable s'
| reach_world : forall s w,
    reachable s -> reachable (mkState (self s) w).

(** One document's calls into the MSO issuer, the last of which fails with
    [e] and leaves the world [w']: the constructor, [sign()], or [encode()]. *)
Definition collaborator_fails (doc : pyval) (s : State) (e : ExtExn) (w' : World)
  : Prop :=
  exists data,
    py_getitem doc "data" = Ok data /\
    (MsoIssuer data (private_key (self s)) (world s) = (inl e, w') \/
     exists msoi w1,
       MsoIssuer data (private_key (self s)) (world s) = (inr msoi, w1) /\
       (MsoIssuer_sign msoi w1 = (inl e, w') \/
        exists mso w2 docType items nameSpaces,
          MsoIssuer_sign msoi w1 = (inr mso, w2) /\
          py_getitem doc "doctype" = Ok docType /\
          py_items (MsoIssuer_disclosure_map msoi w2) = Ok items /\
          nameSpaces_of items [] = Ok nameSpaces /\
          Mso_encode mso w2 = (inl e, w'))).

(** A list element that is a dict holding both keys [new] reads. *)
Definition has_both_keys (doc : pyval) : Prop :=
  exists d x y,
    doc = PDict d /\ dict_get d (KStr "data") = Some x /\
    dict_get d (KStr "doctype") = Some y.

(** Computations that leave the issuer object as it is. *)
Definition keeps_self {A : Type} (m : M A) : Prop :=
  forall s r s', m s = (r, s') -> self s' = self s.

(** Computations that neither read nor write the stored envelope. *)
Definition signed_blind {A : Type} (m : M A) : Prop :=
  forall s v, m (with_signed s v) = (fst (m s), with_signed (snd (m s)) v).

(** The envelope the spec describes for an issuer that has signed nothing
    yet. *)
Definition default_envelope : pyval := envelope "1.0" [] 0.

(** Spec, C1 as worded: the content of the tag is a byte string that holds
    the CBOR encoding of the one-item mapping. *)
Definition encoded_cbor_item (kv : pykey * pyval) : pyval :=
  PTag 24 (PBytes (cbor2_dumps (PDict [kv]))).

(** What an issuer can hold as its stored envelope: the constructor's empty
    dict, or a three-field envelope of documents of the one shape [new]
    builds. *)
Definition stored_ok (v : pyval) : Prop :=
  v = PDict [] \/
  exists documents,
    v = PDict [(KStr "version", PStr "1.0");
               (KStr "documents", PList documents);
               (KStr "status", PInt 0)] /\
    Forall (fun document =>
              exists docType nameSpaces issuerAuth,
                document =
                PDict [(KStr "docType", docType);
                       (KStr "issuerSigned",
                        PDict [(KStr "nameSpaces", PDict nameSpaces);
                               (KStr "issuerAuth", issuerAuth)])])
           documents.

(** The loop of [new] as a relation: the elements of the batch go through
    the two lookups and the calls into the MSO issuer in the order of the
    source, every call from the world the call before it left. *)
Inductive issues (key : K) : list pyval -> World -> list pyval -> World -> Prop :=
| issues_nil : forall w, issues key [] w [] w
| issues_cons : forall doc docs attrs w0 msoi w1 mso w2 docType items
                       nameSpaces issuerAuth w3 documents w4,
    py_getitem doc "data" = Ok attrs ->
    MsoIssuer attrs key w0 = (inr msoi, w1) ->
    MsoIssuer_sign msoi w1 = (inr mso, w2) ->
    py_getitem doc "doctype" = Ok docType ->
    py_items (MsoIssuer_disclosure_map msoi w2) = Ok items ->
    nameSpaces_of items [] = Ok nameSpaces ->
    Mso_encode mso w2 = (inr issuerAuth, w3) ->
    issues key docs w3 documents w4 ->
    issues key (doc :: docs) w0
           (document_of docType nameSpaces issuerAuth :: documents) w4.

(** ** Lemmas on dicts and on the monad *)

Lemma pykey_eqb_refl (k : pykey) : pykey_eqb k k = true.
Proof. unfold pykey_eqb. destruct (pykey_eq_dec k k); congruence. Qed.

Lemma pykey_eqb_neq (a b : pykey) : a <> b -> pykey_eqb a b = false.
Proof. unfold pykey_eqb. destruct (pykey_eq_dec a b); congruence. Qed.

Lemma dict_set_fresh (d : pydict) (k : pykey) (v : pyval) :
  ~ In k (dict_keys d) -> dict_set d k v = d ++ [(k, v)].
Proof.
  induction d as [|[k' v'] d IH]; simpl; intros Hn.
  - reflexivity.
  - rewrite pykey_eqb_neq by (intros ->; apply Hn; now left).
    f_equal. apply IH. intros Hin. apply Hn. now right.
Qed.

Lemma dict_keys_app (a b : pydict) : dict_keys (a ++ b) = dict_keys a ++ dict_keys b.
Proof. unfold dict_keys. apply map_app. Qed.

Lemma reencode_keys (dmap : list (pykey * pydict)) :
  dict_keys (reencode dmap) = dict_keys (as_items dmap).
Proof.
  unfold dict_keys, reencode, as_items. rewrite !map_map.
  apply map_ext. now intros [ns dgst].
Qed.

Lemma tagged_items_map (dgst : pydict) :
  tagged_items dgst = map (fun kv => PTag 24 (PDict [kv])) dgst.
Proof. unfold tagged_items. apply map_ext. now intros [k v]. Qed.

(** The comprehension over a real dict is a map over its items. *)
Lemma nameSpaces_of_wf (dmap : list (pykey * pydict)) (acc : pydict) :
  NoDup (dict_keys acc ++ dict_keys (as_items dmap)) ->
  nameSpaces_of (as_items dmap) acc = Ok (acc ++ reencode dmap).
Proof.
  revert acc. induction dmap as [|[ns dgst] dmap IH]; simpl; intros acc Hnd.
  - now rewrite app_nil_r.
  - rewrite dict_set_fresh.
    + rewrite IH.
      * rewrite <- app_assoc. simpl. now rewrite tagged_items_map.
      * rewrite dict_keys_app. simpl. rewrite <- app_assoc. exact Hnd.
    + intros Hin. apply NoDup_remove_2 in Hnd. apply Hnd.
      apply in_or_app. now left.
Qed.

(** It succeeds only when every name space holds a dict. *)
Lemma nameSpaces_of_ok (items : pydict) (acc out : pydict) :
  nameSpaces_of items acc = Ok out -> exists dmap, items = as_items dmap.
Proof.
  revert acc. induction items as [|[ns dgst] items IH]; simpl; intros acc H.
  - now exists [].
  - destruct dgst; simpl in H; try discriminate.
    apply IH in H. destruct H as [dmap ->].
    now exists ((ns, d) :: dmap).
Qed.

Lemma bind_ok {A B : Type} (m : M A) (k : A -> M B) s b s' :
  bind m k s = (Ok b, s') ->
  exists a s1, m s = (Ok a, s1) /\ k a s1 = (Ok b, s').
Proof.
  unfold bind. destruct (m s) as [[a|e] s1]; intros H.
  - now exists a, s1.
  - discriminate.
Qed.

Lemma bind_raise {A B : Type} (m : M A) (k : A -> M B) s e s' :
  bind m k s = (Raise e, s') ->
  m s = (Raise e, s') \/ exists a s1, m s = (Ok a, s1) /\ k a s1 = (Raise e, s').
Proof.
  unfold bind. destruct (m s) as [[a|e0] s1]; intros H.
  - right. now exists a, s1.
  - left. inversion H; subst. reflexivity.
Qed.

Lemma ext_self {A : Type} (f : World -> (ExtExn + A) * World) s r s' :
  ext f s = (r, s') -> self s' = self s.
Proof.
  unfold ext. destruct (f (world s)) as [x w]. intros H.
  inversion H; subst. reflexivity.
Qed.

Lemma ext_ok {A : Type} (f : World -> (ExtExn + A) * World) s a s' :
  ext f s = (Ok a, s') ->
  exists w, f (world s) = (inr a, w) /\ s' = mkState (self s) w.
Proof.
  unfold ext. destruct (f (world s)) as [[e|x] w]; simpl; intros H;
    inversion H; subst; simpl; eauto.
Qed.

Lemma lift_inv {A : Type} (r r' : result A) s s' :
  lift r s = (r', s') -> r' = r /\ s' = s.
Proof. unfold lift. intros H. inversion H; auto. Qed.

Ltac inv H := inversion H; subst; clear H.

Lemma keeps_self_bind {A B : Type} (m : M A) (k : A -> M B) :
  keeps_self m -> (forall a, keeps_self (k a)) -> keeps_self (bind m k).
Proof.
  intros Hm Hk s r s'. unfold bind.
  destruct (m s) as [[a|e] s1] eqn:E; intros H.
  - apply Hk in H. apply Hm in E. congruence.
  - inv H. now apply Hm in E.
Qed.

Lemma keeps_self_lift {A : Type} (r : result A) : keeps_self (lift r).
Proof. intros s r' s' H. now inv H. Qed.

Lemma keeps_self_ret {A : Type} (a : A) : keeps_self (ret a).
Proof. intros s r' s' H. now inv H. Qed.

Lemma keeps_self_get {A : Type} (attr : MdocCborIssuer -> A) :
  keeps_self (get_attr attr).
Proof. intros s r' s' H. now inv H. Qed.

Lemma keeps_self_read {A : Type} (f : World -> A) : keeps_self (read f).
Proof. intros s r' s' H. now inv H. Qed.

Lemma keeps_self_ext {A : Type} (f : World -> (ExtExn + A) * World) :
  keeps_self (ext f).
Proof. intros s r s'. apply ext_self. Qed.

Lemma signed_blind_bind {A B : Type} (m : M A) (k : A -> M B) :
  signed_blind m -> (forall a, signed_blind (k a)) -> signed_blind (bind m k).
Proof.
  intros Hm Hk s v. unfold bind. rewrite Hm.
  destruct (m s) as [[a|e] s1]; simpl.
  - apply Hk.
  - reflexivity.
Qed.

Lemma signed_blind_lift {A : Type} (r : result A) : signed_blind (lift r).
Proof. intros s v. reflexivity. Qed.

Lemma signed_blind_ret {A : Type} (a : A) : signed_blind (ret a).
Proof. intros s v. reflexivity. Qed.

Lemma signed_blind_read {A : Type} (f : World -> A) : signed_blind (read f).
Proof. intros s v. reflexivity. Qed.

Lemma signed_blind_key : signed_blind (get_attr private_key).
Proof. intros s v. reflexivity. Qed.

Lemma signed_blind_ext {A : Type} (f : World -> (ExtExn + A) * World) :
  signed_blind (ext f).
Proof.
  intros s v. unfold ext, with_signed. simpl.
  destruct (f (world s)) as [r w]. reflexivity.
Qed.

Ltac keeps_self_tac :=
  repeat first
    [ apply keeps_self_lift | apply keeps_self_ret | apply keeps_self_get
    | apply keeps_self_read | apply keeps_self_ext
    | apply keeps_self_bind; [|intro] ].

(** Runs one step of a monadic computation that is known to succeed. *)
Ltac step_ok H :=
  let a := fresh "a" in
  let s1 := fresh "s" in
  let H1 := fresh "H" in
  apply bind_ok in H; destruct H as (a & s1 & H1 & H).

(** ** The loop of [new] *)

Lemma make_document_ok (doc : pyval) s d s' :
  make_document doc s = (Ok d, s') ->
  exists data msoi w1 mso w2 docType items nameSpaces issuerAuth,
    py_getitem doc "data" = Ok data /\
    MsoIssuer data (private_key (self s)) (world s) = (inr msoi, w1) /\
    MsoIssuer_sign msoi w1 = (inr mso, w2) /\
    py_getitem doc "doctype" = Ok docType /\
    py_items (MsoIssuer_disclosure_map msoi w2) = Ok items /\
    nameSpaces_of items [] = Ok nameSpaces /\
    Mso_encode mso w2 = (inr issuerAuth, world s') /\
    d = document_of docType nameSpaces issuerAuth /\
    s' = mkState (self s) (world s').
Proof.
  unfold make_document. intros H.
  step_ok H. apply lift_inv in H0 as [E1 ->].
  step_ok H. inv H0.
  step_ok H. apply ext_ok in H0 as (w1 & E2 & ->).
  step_ok H. apply ext_ok in H0 as (w2 & E3 & ->). simpl in *.
  step_ok H. apply lift_inv in H0 as [E4 ->].
  step_ok H. inv H0. simpl in *.
  step_ok H. apply lift_inv in H0 as [E5 ->].
  step_ok H. apply lift_inv in H0 as [E6 ->].
  step_ok H. apply ext_ok in H0 as (w3 & E7 & ->). simpl in *.
  inv H. simpl in *.
  exists a, a0, w1, a1, w2, a2, a3, a4, a5.
  repeat split; auto.
Qed.

Lemma make_document_self (doc : pyval) : keeps_self (make_document doc).
Proof. unfold make_document. keeps_self_tac. Qed.

Lemma for_docs_self (docs : list pyval) :
  forall documents s r s',
    for_docs docs documents s = (r, s') -> self s' = self s.
Proof.
  induction docs as [|doc docs IH]; simpl; intros documents s r s' H.
  - inv H. reflexivity.
  - unfold bind in H. destruct (make_document doc s) as [[d|e] s1] eqn:E.
    + apply IH in H. apply make_document_self in E. congruence.
    + inv H. now apply make_document_self in E.
Qed.

(** What the loop appends: one document per element, in the elements'
    order, each the outcome of that element's pass through the body. *)
Lemma for_docs_ok (docs : list pyval) :
  forall documents s out s',
    for_docs docs documents s = (Ok out, s') ->
    exists news,
      out = documents ++ news /\
      Forall2 (fun doc d => exists s1 s2,
                 self s1 = self s /\ make_document doc s1 = (Ok d, s2))
              docs news.
Proof.
  induction docs as [|doc docs IH]; simpl; intros documents s out s' H.
  - inv H. exists []. split; [now rewrite app_nil_r | constructor].
  - step_ok H. pose proof (make_document_self _ _ _ _ H0) as Hs.
    apply IH in H. destruct H as (news & -> & HF).
    exists (a :: news). split.
    + now rewrite <- app_assoc.
    + constructor.
      * now exists s, s0.
      * eapply Forall2_impl; [|exact HF]. simpl.
        intros x y (s1 & s2 & E1 & E2). exists s1, s2. split; congruence.
Qed.

Lemma for_docs_app (pre rest : list pyval) :
  forall documents s acc s1,
    for_docs pre documents s = (Ok acc, s1) ->
    for_docs (pre ++ rest) documents s = for_docs rest acc s1.
Proof.
  induction pre as [|doc pre IH]; simpl; intros documents s acc s1 H.
  - now inv H.
  - unfold bind in *. destruct (make_document doc s) as [[d|e] s2].
    + now apply IH.
    + discriminate.
Qed.

(** The loop never looks at the stored envelope. *)
Lemma make_document_signed (doc : pyval) : signed_blind (make_document doc).
Proof.
  unfold make_document.
  repeat first
    [ apply signed_blind_lift | apply signed_blind_ret | apply signed_blind_read
    | apply signed_blind_ext | apply signed_blind_key
    | apply signed_blind_bind; [|intro] ].
Qed.

Lemma for_docs_signed (docs : list pyval) :
  forall documents, signed_blind (for_docs docs documents).
Proof.
  induction docs as [|doc docs IH]; simpl; intros documents.
  - apply signed_blind_ret.
  - apply signed_blind_bind.
    + apply make_document_signed.
    + intros d. intros s0 v0. apply IH.
Qed.

(** ** [new], taken apart *)

Lemma new_ok data devicekeyinfo doctype s env s' :
  new data devicekeyinfo doctype s = (Ok env, s') ->
  exists dki docs documents s1,
    normalize_devicekeyinfo devicekeyinfo = Ok dki /\
    py_iter (normalize_data data (doctype_arg doctype)) = Ok docs /\
    for_docs docs [] s = (Ok documents, s1) /\
    env = envelope (version (self s)) documents (status (self s)) /\
    s' = with_signed s1 env.
Proof.
  unfold new. intros H.
  step_ok H. apply lift_inv in H0 as [E1 ->].
  step_ok H. apply lift_inv in H0 as [E2 ->].
  step_ok H. pose proof (for_docs_self _ _ _ _ _ H0) as Hs.
  step_ok H. inv H1.
  step_ok H. inv H1.
  step_ok H. inv H1. inv H.
  exists a, a0, a1, s0. rewrite Hs. repeat split; auto.
  unfold with_signed. now rewrite Hs.
Qed.

Lemma new_raise data devicekeyinfo doctype s e s' :
  new data devicekeyinfo doctype s = (Raise e, s') -> self s' = self s.
Proof.
  unfold new, bind, lift, get_attr, set_signed, ret. intros H.
  destruct (normalize_devicekeyinfo devicekeyinfo); [|now inv H].
  destruct (py_iter _); [|now inv H].
  destruct (for_docs _ _ _) as [[documents|e0] s1] eqn:E.
  - discriminate.
  - inv H. now apply for_docs_self in E.
Qed.

Lemma new_keeps_attrs data devicekeyinfo doctype s r s' :
  new data devicekeyinfo doctype s = (r, s') ->
  version (self s') = version (self s) /\
  status (self s') = status (self s) /\
  private_key (self s') = private_key (self s).
Proof.
  intros H. destruct r as [env|e].
  - apply new_ok in H. destruct H as (dki & docs & documents & s1 & _ & _ & Hf & _ & ->).
    apply for_docs_self in Hf. simpl. now rewrite Hf.
  - apply new_raise in H. now rewrite H.
Qed.

Lemma new_signed_blind data devicekeyinfo doctype s v :
  fst (new data devicekeyinfo doctype (with_signed s v)) =
  fst (new data devicekeyinfo doctype s).
Proof.
  unfold new, bind, lift.
  destruct (normalize_devicekeyinfo devicekeyinfo); [|reflexivity].
  destruct (py_iter _); [|reflexivity].
  rewrite for_docs_signed.
  destruct (for_docs _ _ s) as [[documents|e] s1]; reflexivity.
Qed.

Lemma init_attrs private_key this :
  init private_key = Ok this ->
  version this = "1.0" /\ status this = 0 /\ signed this = PDict [].
Proof.
  unfold init. intros H.
  destruct (match private_key with Val _ => _ | KeyObj _ => _ end); simpl in H.
  - now inv H.
  - discriminate.
Qed.

(** The constructor's version and status stay for the issuer's life. *)
Lemma reachable_attrs s :
  reachable s -> version (self s) = "1.0" /\ status (self s) = 0.
Proof.
  induction 1 as [pk this w Hi | s data dki dt r s' _ IH Hn | s w _ IH].
  - apply init_attrs in Hi. simpl. tauto.
  - apply new_keeps_attrs in Hn. destruct Hn as (-> & -> & _). exact IH.
  - exact IH.
Qed.

Lemma Forall2_nth {A B : Type} (R : A -> B -> Prop) (da : A) (db : B) la lb :
  Forall2 R la lb ->
  forall i, (i < List.length la)%nat -> R (nth i la da) (nth i lb db).
Proof.
  induction 1 as [|a b la lb Hab _ IH]; simpl; intros i Hi.
  - lia.
  - destruct i as [|i]; [exact Hab | apply IH; lia].
Qed.

Lemma Forall2_len {A B : Type} (R : A -> B -> Prop) la lb :
  Forall2 R la lb -> List.length lb = List.length la.
Proof. induction 1; simpl; congruence. Qed.

(** ** One element of the batch that fails *)

Ltac run_document :=
  unfold make_document, bind, lift, get_attr, read, ext, ret; simpl.

Lemma make_document_no_data (d : pydict) s :
  dict_get d (KStr "data") = None ->
  make_document (PDict d) s = (Raise (KeyError (KStr "data")), s).
Proof. intros H. run_document. now rewrite H. Qed.

Lemma make_document_no_doctype (d : pydict) s data msoi w1 mso w2 :
  dict_get d (KStr "data") = Some data ->
  dict_get d (KStr "doctype") = None ->
  MsoIssuer data (private_key (self s)) (world s) = (inr msoi, w1) ->
  MsoIssuer_sign msoi w1 = (inr mso, w2) ->
  make_document (PDict d) s =
  (Raise (KeyError (KStr "doctype")), mkState (self s) w2).
Proof.
  intros H1 H2 H3 H4. run_document. rewrite H1, H3. simpl.
  rewrite H4. simpl. now rewrite H2.
Qed.

Lemma make_document_collaborator_fails (doc : pyval) s e w' :
  collaborator_fails doc s e w' ->
  make_document doc s = (Raise (External e), mkState (self s) w').
Proof.
  intros (data & Hd & H). run_document. rewrite Hd.
  destruct H as [H | (msoi & w1 & Hm & H)].
  - now rewrite H.
  - rewrite Hm. simpl.
    destruct H as [H | (mso & w2 & docType & items & nameSpaces
                        & Hs & Ht & Hi & Hn & He)].
    + now rewrite H.
    + rewrite Hs. simpl. rewrite Ht, Hi, Hn, He. reflexivity.
Qed.

(** With both keys present a failing element fails outside the lookups. *)
Lemma make_document_raise_kinds (doc : pyval) s e s' :
  has_both_keys doc ->
  make_document doc s = (Raise e, s') ->
  (exists x, e = External x) \/ e = AttributeError.
Proof.
  intros (d & x & y & -> & Hx & Hy). run_document. rewrite Hx.
  destruct (MsoIssuer x _ _) as [[e1|msoi] w1]; simpl;
    [intros H; inv H; eauto|].
  destruct (MsoIssuer_sign msoi w1) as [[e2|mso] w2]; simpl;
    [intros H; inv H; eauto|].
  rewrite Hy.
  destruct (MsoIssuer_disclosure_map msoi w2) as [| | | | | |dm|]; simpl;
    try (intros H; inv H; now right).
  assert (Hn : forall items acc e0,
             nameSpaces_of items acc = Raise e0 -> e0 = AttributeError).
  { clear. induction items as [|[ns dgst] items IH]; simpl; intros acc e0 H.
    - discriminate.
    - destruct dgst; simpl in H; try (now inv H). eapply IH; eauto. }
  destruct (nameSpaces_of dm []) as [nameSpaces|e3] eqn:En.
  - destruct (Mso_encode mso w2) as [[e4|auth] w3]; simpl; intros H; inv H; eauto.
  - intros H. inv H. right. eapply Hn; eauto.
Qed.

Lemma for_docs_raise (docs : list pyval) :
  forall documents s e s',
    for_docs docs documents s = (Raise e, s') ->
    exists doc s1 s2, In doc docs /\ make_document doc s1 = (Raise e, s2).
Proof.
  induction docs as [|doc docs IH]; simpl; intros documents s e s' H.
  - discriminate.
  - apply bind_raise in H. destruct H as [H | (d & s1 & _ & H)].
    + exists doc, s, s'. auto.
    + apply IH in H. destruct H as (doc' & s2 & s3 & Hin & H).
      exists doc', s2, s3. auto.
Qed.

Lemma Forall2_In_l {A B : Type} (R : A -> B -> Prop) la lb a :
  Forall2 R la lb -> In a la -> exists b, R a b.
Proof.
  induction 1 as [|x y la lb Hxy _ IH]; simpl; intros Hin.
  - contradiction.
  - destruct Hin as [->|Hin]; eauto.
Qed.

(** The element at which the loop stops decides the outcome of [new]. *)
Lemma new_stops_at data devicekeyinfo doctype s dki pre doc post acc s1 e s2 :
  normalize_devicekeyinfo devicekeyinfo = Ok dki ->
  py_iter (normalize_data data (doctype_arg doctype)) = Ok (pre ++ doc :: post) ->
  for_docs pre [] s = (Ok acc, s1) ->
  make_document doc s1 = (Raise e, s2) ->
  new data devicekeyinfo doctype s = (Raise e, s2).
Proof.
  intros Hk Hi Hp Hd. unfold new.
  unfold bind at 1. unfold lift at 1. rewrite Hk.
  unfold bind at 1. unfold lift at 1. rewrite Hi.
  unfold bind at 1. rewrite (for_docs_app _ _ _ _ _ _ Hp). simpl.
  unfold bind at 1. now rewrite Hd.
Qed.

(** ** Hexadecimal text *)

Lemma hexlify_byte (b : byte) :
  forallb is_lower_hex (hexlify [b]) = true /\
  unhexlify (hexlify [b]) = Some [b].
Proof. destruct b; split; reflexivity. Qed.

Lemma hexlify_cons (b : byte) (data : list byte) :
  hexlify (b :: data) = hexlify [b] ++ hexlify data.
Proof. unfold hexlify. simpl. reflexivity. Qed.

Lemma hexlify_lower (data : list byte) :
  Forall (fun c => In c lower_hex_digits) (hexlify data).
Proof.
  apply Forall_forall. intros c Hc.
  assert (H : forallb is_lower_hex (hexlify data) = true).
  { clear. induction data as [|b data IH]; [reflexivity|].
    rewrite hexlify_cons, forallb_app, IH.
    now rewrite (proj1 (hexlify_byte b)). }
  rewrite forallb_forall in H. apply H in Hc.
  unfold is_lower_hex in Hc. apply existsb_exists in Hc.
  destruct Hc as (x & Hin & Heq). apply Byte.byte_dec_bl in Heq. now subst.
Qed.

Lemma unhexlify_hexlify (data : list byte) :
  unhexlify (hexlify data) = Some data.
Proof.
  induction data as [|b data IH]; [reflexivity|].
  rewrite hexlify_cons.
  pose proof (proj2 (hexlify_byte b)) as Hb.
  unfold hexlify in Hb |- *. simpl in Hb |- *.
  destruct (hex_value (hex_digit (Z.shiftr (byte_val b) 4))) as [h|];
    [|discriminate].
  destruct (hex_value (hex_digit (Z.land (byte_val b) 15))) as [l|];
    [|discriminate].
  fold (hexlify data). rewrite IH. now inv Hb.
Qed.

Lemma hexlify_length (data : list byte) :
  List.length (hexlify data) = (2 * List.length data)%nat.
Proof.
  induction data as [|b data IH]; [reflexivity|].
  rewrite hexlify_cons, length_app, IH. simpl. lia.
Qed.

(** * The claims *)

(** C2. A call of [new] on a list of N elements that returns an envelope
    returns the dict [{version, documents, status}] whose ["documents"] is
    a list of N documents, [documents[i]["docType"]] being element i's
    ["doctype"] for every i below N; on the empty list (with a
    [devicekeyinfo] that is accepted) it does return, and the envelope's
    ["documents"] is [[]]. *)
Theorem new_batch_order docs devicekeyinfo doctype s :
  (forall env s',
     new (PList docs) devicekeyinfo doctype s = (Ok env, s') ->
     exists documents,
       env = PDict [(KStr "version", PStr (version (self s)));
                    (KStr "documents", PList documents);
                    (KStr "status", PInt (status (self s)))] /\
       py_getitem env "documents" = Ok (PList documents) /\
       List.length documents = List.length docs /\
       forall i, (i < List.length docs)%nat ->
         exists dt,
           py_getitem (nth i docs PNone) "doctype" = Ok dt /\
           py_getitem (nth i documents PNone) "docType" = Ok dt) /\
  (forall dki,
     normalize_devicekeyinfo devicekeyinfo = Ok dki ->
     exists env,
       new (PList []) devicekeyinfo doctype s = (Ok env, with_signed s env) /\
       py_getitem env "documents" = Ok (PList []) /\
       env = PDict [(KStr "version", PStr (version (self s)));
                    (KStr "documents", PList []);
                    (KStr "status", PInt (status (self s)))]).
Proof.
  split.
  - intros env s' H. apply new_ok in H.
    destruct H as (dki & docs' & documents & s1 & _ & Hi & Hf & -> & _).
    simpl in Hi. inv Hi.
    exists documents. split; [reflexivity|]. split; [reflexivity|].
    apply for_docs_ok in Hf. destruct Hf as (news & -> & HF). simpl.
    split; [eapply Forall2_len; exact HF|].
    intros i Hi.
    pose proof (Forall2_nth _ PNone PNone _ _ HF i Hi) as (s1' & s2 & _ & Hd).
    apply make_document_ok in Hd.
    destruct Hd as (data & msoi & w1 & mso & w2 & docType & items & nameSpaces
                    & issuerAuth & _ & _ & _ & Hdt & _ & _ & _ & -> & _).
    exists docType. split; [exact Hdt | reflexivity].
  - intros dki Hk. eexists. unfold new, bind, lift. rewrite Hk.
    split; [reflexivity|]. split; reflexivity.
Qed.

(** C3. On an issuer built by the constructor, after whatever calls came
    before, every call of [new] that returns stores exactly the dict it
    returns, which is [{version: "1.0", documents, status: 0}] with one
    document per element of this call's batch (one for a single mapping)
    and none from an earlier call: after [new(batchA)] and then
    [new(batchB)] the stored ["documents"] has [len(batchB)] elements. The
    call gives the same envelope whatever envelope was stored before. *)
Theorem new_replaces_envelope s data devicekeyinfo doctype env s' :
  reachable s ->
  new data devicekeyinfo doctype s = (Ok env, s') ->
  exists documents,
    env = PDict [(KStr "version", PStr "1.0");
                 (KStr "documents", PList documents);
                 (KStr "status", PInt 0)] /\
    signed (self s') = env /\
    py_getitem (signed (self s')) "documents" = Ok (PList documents) /\
    (forall docs, data = PList docs ->
                  List.length documents = List.length docs) /\
    (forall d, data = PDict d -> List.length documents = 1%nat) /\
    (forall old, fst (new data devicekeyinfo doctype (with_signed s old)) = Ok env).
Proof.
  intros Hr H.
  apply reachable_attrs in Hr. destruct Hr as [Hv Hs].
  pose proof H as H'. apply new_ok in H.
  destruct H as (dki & docs & documents & s1 & _ & Hi & Hf & -> & ->).
  exists documents. unfold envelope. rewrite Hv, Hs.
  split; [reflexivity|]. split; [reflexivity|]. split; [reflexivity|].
  apply for_docs_ok in Hf. destruct Hf as (news & -> & HF). simpl.
  split; [|split].
  - intros docsB ->. simpl in Hi. inv Hi. eapply Forall2_len; eauto.
  - intros d ->. simpl in Hi. inv Hi. now rewrite (Forall2_len _ _ _ HF).
  - intros old. rewrite new_signed_blind, H'. simpl. unfold envelope.
    now rewrite Hv, Hs.
Qed.

(** C4. The constructor normalises the key by its shape: a dict goes
    through [CoseKey.from_dict]; an [EC2Key] is encoded and the bytes are
    decoded again, and the decoded key is the one stored; any other key
    object is stored as it is; every other argument raises
    [MissingPrivateKey] (the spec's MissingSigningKey) and yields no
    issuer. A new issuer has version ["1.0"], status 0 and the empty dict
    as its stored envelope. *)
Theorem init_normalizes_key :
  (forall d,
     init (Val (PDict d)) =
     (key <~ of_ext (CoseKey_from_dict d) ;;
      Ok (mkIssuer "1.0" 0 key (PDict [])))) /\
  (forall k,
     is_EC2Key k = true ->
     init (KeyObj k) =
     (ec2_encoded <~ of_ext (CoseKey_encode k) ;;
      ec2_decoded <~ of_ext (CoseKey_decode ec2_encoded) ;;
      Ok (mkIssuer "1.0" 0 ec2_decoded (PDict [])))) /\
  (forall k,
     is_EC2Key k = false ->
     init (KeyObj k) = Ok (mkIssuer "1.0" 0 k (PDict []))) /\
  (forall v,
     (forall d, v <> PDict d) ->
     init (Val v) = Raise (MissingPrivateKey "You must provide a private key")).
Proof.
  repeat split.
  - intros k Hk. unfold init. rewrite Hk.
    destruct (CoseKey_encode k) as [e|wire]; simpl; [reflexivity|].
    destruct (CoseKey_decode wire); reflexivity.
  - intros k Hk. unfold init. now rewrite Hk.
  - intros v Hv. destruct v; try reflexivity. now destruct (Hv d).
Qed.

(** C5. [new] on a single mapping with the parameter [doctype] given is
    [new] on the one-element list [[{"doctype": doctype, "data": data}]];
    with the parameter left out it is [new] on
    [[{"doctype": None, "data": data}]]. The parameter is not examined:
    when the call with a doctype returns, ["documents"] of its envelope
    holds one document whose ["docType"] is that doctype, and the call
    with the parameter left out returns as well, with the same document
    but for ["docType"], which is [None]. *)
Theorem new_single_mapping d devicekeyinfo s :
  (forall dt,
     new (PDict d) devicekeyinfo (Some dt) s =
     new (PList [PDict [(KStr "doctype", dt); (KStr "data", PDict d)]])
         devicekeyinfo (Some dt) s) /\
  new (PDict d) devicekeyinfo None s =
  new (PList [PDict [(KStr "doctype", PNone); (KStr "data", PDict d)]])
      devicekeyinfo None s /\
  (forall dt env s',
     new (PDict d) devicekeyinfo (Some dt) s = (Ok env, s') ->
     exists document nameSpaces issuerAuth w env0 document0,
       py_getitem env "documents" = Ok (PList [document]) /\
       py_getitem document "docType" = Ok dt /\
       document = document_of dt nameSpaces issuerAuth /\
       new (PDict d) devicekeyinfo None s =
       (Ok env0, with_signed (mkState (self s) w) env0) /\
       py_getitem env0 "documents" = Ok (PList [document0]) /\
       py_getitem document0 "docType" = Ok PNone /\
       document0 = document_of PNone nameSpaces issuerAuth) /\
  (forall env s',
     new (PDict d) devicekeyinfo None s = (Ok env, s') ->
     exists document,
       py_getitem env "documents" = Ok (PList [document]) /\
       py_getitem document "docType" = Ok PNone).
Proof.
  assert (Hone : forall doctype env s',
             new (PDict d) devicekeyinfo doctype s = (Ok env, s') ->
             exists dki attrs msoi w1 mso w2 items nameSpaces issuerAuth w3,
               normalize_devicekeyinfo devicekeyinfo = Ok dki /\
               MsoIssuer (PDict d) (private_key (self s)) (world s) = (inr msoi, w1) /\
               MsoIssuer_sign msoi w1 = (inr mso, w2) /\
               py_items (MsoIssuer_disclosure_map msoi w2) = Ok items /\
               nameSpaces_of items [] = Ok nameSpaces /\
               Mso_encode mso w2 = (inr issuerAuth, w3) /\
               attrs = PDict d /\
               env = envelope (version (self s))
                              [document_of (doctype_arg doctype) nameSpaces issuerAuth]
                              (status (self s))).
  { intros doctype env s' H. apply new_ok in H.
    destruct H as (dki & docs & documents & s1 & Hk & Hi & Hf & -> & _).
    simpl in Hi. inv Hi. simpl in Hf.
    apply bind_ok in Hf. destruct Hf as (document & s2 & Hd & Hf).
    unfold ret in Hf. injection Hf as Hdocs Hs. subst documents s1.
    apply make_document_ok in Hd.
    destruct Hd as (data & msoi & w1 & mso & w2 & docType & items & nameSpaces
                    & issuerAuth & H1 & H2 & H3 & H4 & H5 & H6 & H7 & -> & _).
    simpl in H1, H4, H7. inv H1. inv H4.
    exists dki, (PDict d), msoi, w1, mso, w2, items, nameSpaces, issuerAuth,
      (world s2).
    repeat split; auto. }
  split; [reflexivity|]. split; [reflexivity|]. split.
  - intros dt env s' H. apply Hone in H.
    destruct H as (dki & attrs & msoi & w1 & mso & w2 & items & nameSpaces
                   & issuerAuth & w3 & Hk & H2 & H3 & H5 & H6 & H7 & _ & ->).
    exists (document_of dt nameSpaces issuerAuth), nameSpaces, issuerAuth, w3,
      (envelope (version (self s)) [document_of PNone nameSpaces issuerAuth]
                (status (self s))),
      (document_of PNone nameSpaces issuerAuth).
    split; [reflexivity|]. split; [reflexivity|]. split; [reflexivity|].
    split; [|repeat split].
    unfold new, bind, lift. rewrite Hk. simpl.
    unfold make_document, bind, lift, get_attr, read, ext, ret. simpl.
    rewrite H2. simpl. rewrite H3. simpl. rewrite H5, H6, H7. reflexivity.
  - intros env s' H. apply Hone in H.
    destruct H as (dki & attrs & msoi & w1 & mso & w2 & items & nameSpaces
                   & issuerAuth & w3 & _ & _ & _ & _ & _ & _ & _ & ->).
    exists (document_of PNone nameSpaces issuerAuth). split; reflexivity.
Qed.

(** C6. On every issuer state [dump] returns the CBOR encoding [b] of the
    stored envelope and [dumps] returns the hexadecimal text of [b]: two
    digits per byte, all of them in ["0123456789abcdef"], and
    [unhexlify] gives [b] back. Neither changes the state, and [dump]
    called twice returns the same bytes twice. *)
Theorem dumps_hex_of_dump s :
  exists b,
    dump s = (Ok b, s) /\
    dumps s = (Ok (hexlify b), s) /\
    b = cbor2_dumps (signed (self s)) /\
    Forall (fun c => In c lower_hex_digits) (hexlify b) /\
    List.length (hexlify b) = (2 * List.length b)%nat /\
    unhexlify (hexlify b) = Some b /\
    (first <- dump ;; second <- dump ;; ret (first, second)) s = (Ok (b, b), s).
Proof.
  exists (cbor2_dumps (signed (self s))).
  repeat split; auto using hexlify_lower, hexlify_length, unhexlify_hexlify.
Qed.

(** C7 (amended). On an issuer that the constructor has just built,
    whatever the world, [dump] does not fail and returns the single byte
    [0xA0], the encoding of the empty mapping [{}] the constructor stored;
    [dumps] returns the text ["a0"]. That is not the encoding of
    [{version: "1.0", documents: [], status: 0}]. *)
Theorem dump_before_new private_key this w :
  init private_key = Ok this ->
  dump (mkState this w) = (Ok [xa0], mkState this w) /\
  dumps (mkState this w) = (Ok [x61; x30], mkState this w) /\
  signed this = PDict [] /\
  cbor2_dumps default_envelope <> [xa0].
Proof.
  intros H. apply init_attrs in H. destruct H as (_ & _ & Hs).
  unfold dump, dumps, bind, get_attr, ret. simpl. rewrite Hs.
  repeat split. discriminate.
Qed.

(** C8. When the MSO issuer fails with [e] on an element of the batch
    (in its constructor, in [sign()] or in [encode()]) after the elements
    before it went through, [new] raises that very [e] and the issuer is
    as it was before the call, stored envelope included; and whatever
    makes a call of [new] fail, the issuer is as it was before the call. *)
Theorem new_failure_atomic data devicekeyinfo doctype s dki pre doc post acc s1 e w' :
  normalize_devicekeyinfo devicekeyinfo = Ok dki ->
  py_iter (normalize_data data (doctype_arg doctype)) = Ok (pre ++ doc :: post) ->
  for_docs pre [] s = (Ok acc, s1) ->
  collaborator_fails doc s1 e w' ->
  new data devicekeyinfo doctype s = (Raise (External e), mkState (self s) w') /\
  (forall data' devicekeyinfo' doctype' s0 e' s',
     new data' devicekeyinfo' doctype' s0 = (Raise e', s') ->
     self s' = self s0 /\ signed (self s') = signed (self s0)).
Proof.
  intros Hk Hi Hp Hc. split.
  - rewrite <- (for_docs_self _ _ _ _ _ Hp).
    eapply new_stops_at;
      [exact Hk | exact Hi | exact Hp
      | now apply make_document_collaborator_fails].
  - intros data' dki' dt' s0 e' s' H. apply new_raise in H.
    now rewrite H.
Qed.

(** C9. For any two [devicekeyinfo] arguments that are accepted (a dict
    that [CoseKey.from_dict] parses, or anything that is not a dict), with
    the same data, doctype, issuer and world, [new] has the same outcome:
    the same envelope and the same state after it. *)
Theorem new_ignores_devicekeyinfo data doctype s devicekeyinfo1 devicekeyinfo2 k1 k2 :
  normalize_devicekeyinfo devicekeyinfo1 = Ok k1 ->
  normalize_devicekeyinfo devicekeyinfo2 = Ok k2 ->
  new data devicekeyinfo1 doctype s = new data devicekeyinfo2 doctype s.
Proof.
  intros H1 H2. unfold new.
  unfold bind at 1. unfold lift at 1. rewrite H1.
  symmetry. unfold bind at 1. unfold lift at 1. rewrite H2.
  reflexivity.
Qed.

(** C10 (amended). With [data] a list of dicts and [devicekeyinfo]
    accepted, the loop subscripts every element it reaches by ["data"] and
    ["doctype"] with no guard: at the first element it reaches that lacks
    ["data"], [new] raises [KeyError("data")]; at one that has ["data"] but
    lacks ["doctype"], once the MSO issuer has been built on its data and
    has signed, [new] raises [KeyError("doctype")] (the lookup comes after
    those two calls, and their failure is raised in its place); a list
    with an element lacking either key never yields an envelope. When
    every element holds both keys, [new] raises neither a [KeyError] nor a
    [TypeError] of its own. *)
Theorem new_unguarded_lookups docs devicekeyinfo doctype s dki :
  normalize_devicekeyinfo devicekeyinfo = Ok dki ->
  (forall pre d post acc s1,
     docs = pre ++ PDict d :: post ->
     for_docs pre [] s = (Ok acc, s1) ->
     dict_get d (KStr "data") = None ->
     new (PList docs) devicekeyinfo doctype s =
     (Raise (KeyError (KStr "data")), s1)) /\
  (forall pre d post acc s1 data msoi w1 mso w2,
     docs = pre ++ PDict d :: post ->
     for_docs pre [] s = (Ok acc, s1) ->
     dict_get d (KStr "data") = Some data ->
     dict_get d (KStr "doctype") = None ->
     MsoIssuer data (private_key (self s1)) (world s1) = (inr msoi, w1) ->
     MsoIssuer_sign msoi w1 = (inr mso, w2) ->
     new (PList docs) devicekeyinfo doctype s =
     (Raise (KeyError (KStr "doctype")), mkState (self s1) w2)) /\
  (forall d,
     In (PDict d) docs ->
     dict_get d (KStr "data") = None \/ dict_get d (KStr "doctype") = None ->
     exists e s', new (PList docs) devicekeyinfo doctype s = (Raise e, s')) /\
  (Forall has_both_keys docs ->
   forall e s',
     new (PList docs) devicekeyinfo doctype s = (Raise e, s') ->
     (forall k, e <> KeyError k) /\ e <> TypeError).
Proof.
  intros Hk. repeat split.
  - intros pre d post acc s1 -> Hp Hd.
    eapply new_stops_at;
      [exact Hk | reflexivity | exact Hp | now apply make_document_no_data].
  - intros pre d post acc s1 data msoi w1 mso w2 -> Hp H1 H2 H3 H4.
    eapply new_stops_at;
      [exact Hk | reflexivity | exact Hp
      | eapply make_document_no_doctype; eauto].
  - intros d Hin Hlack.
    destruct (new (PList docs) devicekeyinfo doctype s) as [[env|e] s'] eqn:E;
      [|eauto].
    exfalso. apply new_ok in E.
    destruct E as (dki' & docs' & documents & s1 & _ & Hi & Hf & _ & _).
    simpl in Hi. inv Hi. apply for_docs_ok in Hf.
    destruct Hf as (news & _ & HF).
    destruct (Forall2_In_l _ _ _ _ HF Hin) as (b & s2 & s3 & _ & Hd).
    apply make_document_ok in Hd.
    destruct Hd as (data & msoi & w1 & mso & w2 & docType & items & nameSpaces
                    & issuerAuth & H1 & _ & _ & H4 & _).
    simpl in H1, H4. destruct Hlack as [Hl|Hl]; rewrite Hl in *; discriminate.
  - intros k ->. revert H0. unfold new, bind, lift. rewrite Hk. simpl.
    destruct (for_docs docs [] s) as [[documents|e0] s1] eqn:E;
      [discriminate|].
    intros H0. inv H0. apply for_docs_raise in E.
    destruct E as (doc & s2 & s3 & Hin & Hd).
    rewrite Forall_forall in H. apply H in Hin.
    destruct (make_document_raise_kinds _ _ _ _ Hin Hd) as [[x Hx]|Hx];
      discriminate.
  - intros ->. revert H0. unfold new, bind, lift. rewrite Hk. simpl.
    destruct (for_docs docs [] s) as [[documents|e0] s1] eqn:E;
      [discriminate|].
    intros H0. inv H0. apply for_docs_raise in E.
    destruct E as (doc & s2 & s3 & Hin & Hd).
    rewrite Forall_forall in H. apply H in Hin.
    destruct (make_document_raise_kinds _ _ _ _ Hin Hd) as [[x Hx]|Hx];
      discriminate.
Qed.

(** * Further properties of the issuer *)

(** ** The loop and the relation [issues] *)

Lemma make_document_run doc s attrs msoi w1 mso w2 docType items nameSpaces
      issuerAuth w3 :
  py_getitem doc "data" = Ok attrs ->
  MsoIssuer attrs (private_key (self s)) (world s) = (inr msoi, w1) ->
  MsoIssuer_sign msoi w1 = (inr mso, w2) ->
  py_getitem doc "doctype" = Ok docType ->
  py_items (MsoIssuer_disclosure_map msoi w2) = Ok items ->
  nameSpaces_of items [] = Ok nameSpaces ->
  Mso_encode mso w2 = (inr issuerAuth, w3) ->
  make_document doc s =
  (Ok (document_of docType nameSpaces issuerAuth), mkState (self s) w3).
Proof.
  intros H1 H2 H3 H4 H5 H6 H7. run_document.
  rewrite H1, H2. simpl. rewrite H3. simpl. rewrite H4, H5, H6, H7.
  reflexivity.
Qed.

Lemma for_docs_issues (docs : list pyval) :
  forall acc s out s',
    for_docs docs acc s = (Ok out, s') ->
    exists news,
      out = acc ++ news /\
      issues (private_key (self s)) docs (world s) news (world s') /\
      s' = mkState (self s) (world s').
Proof.
  induction docs as [|doc docs IH]; simpl; intros acc s out s' H.
  - inv H. exists []. rewrite app_nil_r. repeat split.
    + constructor.
    + now destruct s'.
  - step_ok H. apply make_document_ok in H0.
    destruct H0 as (attrs & msoi & w1 & mso & w2 & docType & items & nameSpaces
                    & issuerAuth & H1 & H2 & H3 & H4 & H5 & H6 & H7 & -> & Hs).
    apply IH in H. destruct H as (news & -> & Hi & Hs').
    rewrite Hs in Hi, Hs'. simpl in Hi, Hs'.
    exists (document_of docType nameSpaces issuerAuth :: news).
    rewrite <- app_assoc. repeat split; auto.
    econstructor; eauto.
Qed.

Lemma issues_for_docs key docs w news w' :
  issues key docs w news w' ->
  forall acc s,
    private_key (self s) = key -> world s = w ->
    for_docs docs acc s = (Ok (acc ++ news), mkState (self s) w').
Proof.
  induction 1 as [w | doc docs attrs w0 msoi w1 mso w2 docType items nameSpaces
                        issuerAuth w3 documents w4 H1 H2 H3 H4 H5 H6 H7 _ IH];
    intros acc s Hk Hw; simpl.
  - rewrite app_nil_r. unfold ret. subst w. now destruct s.
  - subst key w0. unfold bind.
    rewrite (make_document_run _ _ _ _ _ _ _ _ _ _ _ _ H1 H2 H3 H4 H5 H6 H7).
    rewrite (IH (acc ++ [document_of docType nameSpaces issuerAuth])
                (mkState (self s) w3) eq_refl eq_refl).
    simpl. now rewrite <- app_assoc.
Qed.

Lemma issues_app key a w docsA w1 b docsB w2 :
  issues key a w docsA w1 ->
  issues key b w1 docsB w2 ->
  issues key (a ++ b) w (docsA ++ docsB) w2.
Proof.
  induction 1; intros Hb; simpl; [exact Hb|].
  econstructor; eauto.
Qed.

Lemma issues_documents key docs w news w' :
  issues key docs w news w' ->
  Forall (fun document =>
            exists docType nameSpaces issuerAuth,
              document = document_of docType nameSpaces issuerAuth) news.
Proof. induction 1; constructor; eauto. Qed.

Lemma new_ok_issues data devicekeyinfo doctype s env s' :
  new data devicekeyinfo doctype s = (Ok env, s') ->
  exists dki docs documents w',
    normalize_devicekeyinfo devicekeyinfo = Ok dki /\
    py_iter (normalize_data data (doctype_arg doctype)) = Ok docs /\
    issues (private_key (self s)) docs (world s) documents w' /\
    env = envelope (version (self s)) documents (status (self s)) /\
    s' = with_signed (mkState (self s) w') env.
Proof.
  intros H. apply new_ok in H.
  destruct H as (dki & docs & documents & s1 & Hk & Hi & Hf & -> & ->).
  apply for_docs_issues in Hf. destruct Hf as (news & -> & Hiss & Hs).
  exists dki, docs, news, (world s1). simpl. repeat split; auto.
  now rewrite Hs.
Qed.

Lemma issues_new data devicekeyinfo doctype s dki docs documents w' :
  normalize_devicekeyinfo devicekeyinfo = Ok dki ->
  py_iter (normalize_data data (doctype_arg doctype)) = Ok docs ->
  issues (private_key (self s)) docs (world s) documents w' ->
  let env := envelope (version (self s)) documents (status (self s)) in
  new data devicekeyinfo doctype s = (Ok env, with_signed (mkState (self s) w') env).
Proof.
  intros Hk Hi Hiss. unfold new.
  unfold bind at 1. unfold lift at 1. rewrite Hk.
  unfold bind at 1. unfold lift at 1. rewrite Hi.
  unfold bind at 1.
  rewrite (issues_for_docs _ _ _ _ _ Hiss [] s eq_refl eq_refl).
  reflexivity.
Qed.

(** X11. [new] returns an envelope exactly when [devicekeyinfo] is
    accepted, the batch can be iterated, and every element in turn has
    ["data"], the MSO issuer is built on it and signs, the element has
    ["doctype"], the disclosure map is a dict of dicts and [encode()]
    returns, each call made from the world the one before left; the value
    returned is then the dict [{version, documents, status}] with the
    issuer's version and status and the documents in that order, and the
    issuer holds that dict. *)
Theorem new_returns_iff data devicekeyinfo doctype s env s' :
  new data devicekeyinfo doctype s = (Ok env, s') <->
  exists dki docs documents w',
    normalize_devicekeyinfo devicekeyinfo = Ok dki /\
    py_iter (normalize_data data (doctype_arg doctype)) = Ok docs /\
    issues (private_key (self s)) docs (world s) documents w' /\
    env = PDict [(KStr "version", PStr (version (self s)));
                 (KStr "documents", PList documents);
                 (KStr "status", PInt (status (self s)))] /\
    s' = with_signed (mkState (self s) w') env.
Proof.
  split.
  - apply new_ok_issues.
  - intros (dki & docs & documents & w' & Hk & Hi & Hiss & -> & ->).
    exact (issues_new _ _ _ _ _ _ _ _ Hk Hi Hiss).
Qed.

(** X4. Issuing a list [a ++ b] in one call gives the documents of
    [new(a)] followed by those of a [new(b)] made right after it: when the
    two calls return envelopes, so does the single call, its ["documents"]
    being the two lists of documents concatenated, and it ends in the same
    world. *)
Theorem new_batch_concat a b devicekeyinfo doctype dkiB doctypeB s envA sA envB sB :
  new (PList a) devicekeyinfo doctype s = (Ok envA, sA) ->
  new (PList b) dkiB doctypeB sA = (Ok envB, sB) ->
  exists docsA docsB env,
    py_getitem envA "documents" = Ok (PList docsA) /\
    py_getitem envB "documents" = Ok (PList docsB) /\
    new (PList (a ++ b)) devicekeyinfo doctype s = (Ok env, with_signed sB env) /\
    py_getitem env "documents" = Ok (PList (docsA ++ docsB)) /\
    env = PDict [(KStr "version", PStr (version (self s)));
                 (KStr "documents", PList (docsA ++ docsB));
                 (KStr "status", PInt (status (self s)))].
Proof.
  intros HA HB.
  apply new_ok_issues in HA.
  destruct HA as (dki & docs & docsA & w1 & Hk & Hi & HissA & -> & ->).
  simpl in Hi. injection Hi as Hi. subst docs.
  apply new_ok_issues in HB.
  destruct HB as (dki' & docs' & docsB & w2 & _ & Hi' & HissB & -> & ->).
  simpl in Hi'. injection Hi' as Hi'. subst docs'. simpl in *.
  exists docsA, docsB,
    (PDict [(KStr "version", PStr (version (self s)));
            (KStr "documents", PList (docsA ++ docsB));
            (KStr "status", PInt (status (self s)))]).
  split; [reflexivity|]. split; [reflexivity|]. split; [|split; reflexivity].
  assert (Hiss : issues (private_key (self s)) (a ++ b) (world s)
                        (docsA ++ docsB) w2) by (eapply issues_app; eauto).
  rewrite (issues_new (PList (a ++ b)) devicekeyinfo doctype s dki (a ++ b)
                      (docsA ++ docsB) w2 Hk eq_refl Hiss).
  reflexivity.
Qed.

(** X1. A call of [new] that returns stores in the issuer the very
    envelope it returns and changes nothing else of it; and whether it
    returns or raises, the issuer's key, version and status are the ones
    it had. *)
Theorem new_stores_what_it_returns data devicekeyinfo doctype s r s' :
  new data devicekeyinfo doctype s = (r, s') ->
  private_key (self s') = private_key (self s) /\
  version (self s') = version (self s) /\
  status (self s') = status (self s) /\
  signed (self s') = match r with
                     | Ok env => env
                     | Raise _ => signed (self s)
                     end.
Proof.
  intros H. destruct r as [env|e].
  - apply new_ok_issues in H.
    destruct H as (dki & docs & documents & w' & _ & _ & _ & -> & ->).
    repeat split.
  - apply new_raise in H. rewrite H. repeat split.
Qed.

(** X2. Whatever calls were made on an issuer since the constructor built
    it, it holds version ["1.0"], status 0, and as its stored envelope
    either the constructor's empty dict or
    [{version: "1.0", documents, status: 0}] with every document of the
    shape [{docType, issuerSigned: {nameSpaces, issuerAuth}}]. *)
Theorem stored_envelope_invariant s :
  reachable s ->
  version (self s) = "1.0" /\ status (self s) = 0 /\ stored_ok (signed (self s)).
Proof.
  induction 1 as [pk this w Hi | s data dki dt r s' Hr IH Hn | s w _ IH].
  - apply init_attrs in Hi. destruct Hi as (Hv & Hs & Hg). simpl.
    repeat split; auto. now left.
  - destruct IH as (Hv & Hs & Hg). destruct r as [env|e].
    + apply new_ok_issues in Hn.
      destruct Hn as (k & docs & documents & w' & _ & _ & Hiss & -> & ->).
      simpl. repeat split; auto. right. exists documents.
      unfold envelope. rewrite Hv, Hs. split; [reflexivity|].
      exact (issues_documents _ _ _ _ _ Hiss).
    + apply new_raise in Hn. rewrite Hn. auto.
  - exact IH.
Qed.

(** X3. [dump] after a call of [new] returns the encoding of the envelope
    that call returned, and [dumps] its hexadecimal text; after a call of
    [new] that raised, both give what they gave before the call. *)
Theorem dump_after_new data devicekeyinfo doctype s r s' :
  new data devicekeyinfo doctype s = (r, s') ->
  let stored := match r with
                | Ok env => env
                | Raise _ => signed (self s)
                end in
  dump s' = (Ok (cbor2_dumps stored), s') /\
  dumps s' = (Ok (hexlify (cbor2_dumps stored)), s') /\
  (forall e, r = Raise e -> fst (dump s') = fst (dump s) /\
                            fst (dumps s') = fst (dumps s)).
Proof.
  intros H. simpl.
  assert (Hg : signed (self s') = match r with
                                  | Ok env => env
                                  | Raise _ => signed (self s)
                                  end).
  { destruct r as [env|e].
    - apply new_ok_issues in H.
      now destruct H as (dki & docs & documents & w' & _ & _ & _ & -> & ->).
    - apply new_raise in H. now rewrite H. }
  unfold dump, dumps, bind, get_attr, ret. simpl. rewrite Hg.
  split; [reflexivity|]. split; [reflexivity|].
  intros e0 Hr. subst r. split; reflexivity.
Qed.

(** ** Arguments of the wrong kind *)

(** X5. A [devicekeyinfo] dict goes through [CoseKey.from_dict] before
    anything else: when that fails, [new] raises its exception and nothing
    has happened, whatever the data (the MSO issuer was not called, the
    issuer is as it was). A [devicekeyinfo] that is not a dict is never
    examined: any value does what a key object does. *)
Theorem new_devicekeyinfo_checked_first data doctype s :
  (forall d e,
     CoseKey_from_dict d = inl e ->
     new data (Val (PDict d)) doctype s = (Raise (External e), s)) /\
  (forall v k,
     (forall d, v <> PDict d) ->
     new data (Val v) doctype s = new data (KeyObj k) doctype s).
Proof.
  split.
  - intros d e H. unfold new, bind, lift, normalize_devicekeyinfo.
    rewrite H. reflexivity.
  - intros v k Hv. unfold new.
    unfold bind at 1. unfold lift at 1. symmetry.
    unfold bind at 1. unfold lift at 1.
    destruct v; try reflexivity. now destruct (Hv d).
Qed.

(** X6. With [devicekeyinfo] accepted, data that is neither a dict nor a
    list: [None], a boolean, an integer or a [CBORTag] cannot be iterated
    and [new] raises [TypeError]; a string or byte string that is not empty
    raises [TypeError] at its first element; the empty string and the empty
    byte string give the dict [{version, documents: [], status}], which
    is stored. In the failing cases the MSO issuer is not called and nothing changes. *)
Theorem new_data_of_wrong_type data devicekeyinfo doctype s dki :
  normalize_devicekeyinfo devicekeyinfo = Ok dki ->
  let empty := PDict [(KStr "version", PStr (version (self s)));
                      (KStr "documents", PList []);
                      (KStr "status", PInt (status (self s)))] in
  match data with
  | PNone | PBool _ | PInt _ | PTag _ _ =>
      new data devicekeyinfo doctype s = (Raise TypeError, s)
  | PStr EmptyString | PBytes [] =>
      new data devicekeyinfo doctype s = (Ok empty, with_signed s empty)
  | PStr (String _ _) | PBytes (_ :: _) =>
      new data devicekeyinfo doctype s = (Raise TypeError, s)
  | PList _ | PDict _ => True
  end.
Proof.
  intros Hk. unfold new, bind, lift. rewrite Hk.
  destruct data as [| b | z | [|c r] | [|b r] | l | d | t v]; simpl;
    try reflexivity; exact I.
Qed.

(** X7. With [data] a list, at the first element the loop reaches that is
    not a dict [new] raises [TypeError], before the MSO issuer is called
    for it: the state is the one the elements before it left. *)
Theorem new_element_not_a_dict docs devicekeyinfo doctype s dki pre doc post acc s1 :
  normalize_devicekeyinfo devicekeyinfo = Ok dki ->
  docs = pre ++ doc :: post ->
  for_docs pre [] s = (Ok acc, s1) ->
  (forall d, doc <> PDict d) ->
  new (PList docs) devicekeyinfo doctype s = (Raise TypeError, s1).
Proof.
  intros Hk -> Hp Hd.
  eapply new_stops_at; [exact Hk | reflexivity | exact Hp |].
  run_document. destruct doc; try reflexivity. now destruct (Hd d).
Qed.

(** ** The name spaces determine the disclosure map *)

Lemma reencode_inj (d1 d2 : list (pykey * pydict)) :
  reencode d1 = reencode d2 -> d1 = d2.
Proof.
  assert (Hm : forall l1 l2 : pydict,
             map (fun kv => PTag 24 (PDict [kv])) l1 =
             map (fun kv => PTag 24 (PDict [kv])) l2 -> l1 = l2).
  { induction l1 as [|x l1 IH]; destruct l2 as [|y l2]; simpl; intros H;
      try discriminate; [reflexivity|].
    injection H as Hx Hl. subst y. f_equal. now apply IH. }
  revert d2. induction d1 as [|[ns1 g1] d1 IH]; destruct d2 as [|[ns2 g2] d2];
    simpl; intros H; try discriminate; [reflexivity|].
  injection H as Hn Hg Hr. subst ns2.
  apply Hm in Hg. subst g2. f_equal. now apply IH.
Qed.

(** X9. The re-encoding loses nothing: two disclosure maps (real dicts of
    dicts) for which the comprehension of [new] builds the same
    [nameSpaces] are the same map, name spaces, digest ids, values and
    order included. *)
Theorem nameSpaces_determine_disclosure_map d1 d2 nameSpaces :
  dict_wf (as_items d1) ->
  dict_wf (as_items d2) ->
  nameSpaces_of (as_items d1) [] = Ok nameSpaces ->
  nameSpaces_of (as_items d2) [] = Ok nameSpaces ->
  d1 = d2.
Proof.
  intros W1 W2 H1 H2.
  rewrite nameSpaces_of_wf in H1 by exact W1.
  rewrite nameSpaces_of_wf in H2 by exact W2.
  inv H1. simpl in H2. injection H2 as H2. now apply reencode_inj.
Qed.

(** ** The exceptions of [new] and the shapes of the key *)

Lemma nameSpaces_of_raise (items : pydict) :
  forall acc e, nameSpaces_of items acc = Raise e -> e = AttributeError.
Proof.
  induction items as [|[ns dgst] items IH]; simpl; intros acc e H.
  - discriminate.
  - destruct dgst; simpl in H; try (now inv H). eapply IH; eauto.
Qed.

Ltac pick_kind :=
  solve [ left; reflexivity | right; pick_kind | eexists; reflexivity ].

Lemma make_document_raise (doc : pyval) s e s' :
  make_document doc s = (Raise e, s') ->
  e = KeyError (KStr "data") \/ e = KeyError (KStr "doctype") \/
  e = TypeError \/ e = AttributeError \/ exists x, e = External x.
Proof.
  run_document.
  destruct doc; simpl; try (intros H; inv H; pick_kind).
  destruct (dict_get d (KStr "data")) as [attrs|];
    [|simpl; intros H; inv H; pick_kind].
  destruct (MsoIssuer attrs _ _) as [[e1|msoi] w1]; simpl;
    [intros H; inv H; pick_kind|].
  destruct (MsoIssuer_sign msoi w1) as [[e2|mso] w2]; simpl;
    [intros H; inv H; pick_kind|].
  destruct (dict_get d (KStr "doctype")) as [docType|];
    [|simpl; intros H; inv H; pick_kind].
  destruct (MsoIssuer_disclosure_map msoi w2) as [| | | | | |dm|]; simpl;
    try (intros H; inv H; pick_kind).
  destruct (nameSpaces_of dm []) as [nameSpaces|e3] eqn:En.
  - destruct (Mso_encode mso w2) as [[e4|auth] w3]; simpl; intros H; inv H;
      pick_kind.
  - intros H. inv H. apply nameSpaces_of_raise in En. subst. pick_kind.
Qed.

(** X10. Every exception [new] raises is one of: [KeyError("data")],
    [KeyError("doctype")], [TypeError], [AttributeError], or an exception
    of pycose or of the MSO issuer passed on as it is. It raises no other
    [KeyError] and never [MissingPrivateKey]. *)
Theorem new_exceptions data devicekeyinfo doctype s e s' :
  new data devicekeyinfo doctype s = (Raise e, s') ->
  e = KeyError (KStr "data") \/ e = KeyError (KStr "doctype") \/
  e = TypeError \/ e = AttributeError \/ exists x, e = External x.
Proof.
  unfold new, bind, lift.
  destruct (normalize_devicekeyinfo devicekeyinfo) as [dki|e0] eqn:Ek.
  - destruct (py_iter _) as [docs|e1] eqn:Ei.
    + destruct (for_docs docs [] s) as [[documents|e2] s1] eqn:Ef;
        [discriminate|].
      intros H. inv H. apply for_docs_raise in Ef.
      destruct Ef as (doc & s2 & s3 & _ & Hd).
      eapply make_document_raise; eauto.
    + intros H. inv H.
      destruct (normalize_data data (doctype_arg doctype)); simpl in Ei;
        inv Ei; pick_kind.
  - intros H. inv H. unfold normalize_devicekeyinfo in Ek.
    destruct devicekeyinfo as [v|k]; [|discriminate].
    destruct v; try discriminate.
    destruct (CoseKey_from_dict d) as [x|k]; simpl in Ek; inv Ek. pick_kind.
Qed.

(** X12. A key passed as its parameter dict and the same key passed as the
    object [CoseKey.from_dict] makes of the dict build the same issuer,
    provided that for an [EC2Key] encoding and decoding give the key back;
    the two issuers then answer every call of [new] alike. *)
Theorem init_key_shapes_agree d k :
  CoseKey_from_dict d = inr k ->
  (is_EC2Key k = true ->
   exists wire, CoseKey_encode k = inr wire /\ CoseKey_decode wire = inr k) ->
  init (Val (PDict d)) = Ok (mkIssuer "1.0" 0 k (PDict [])) /\
  init (KeyObj k) = init (Val (PDict d)).
Proof.
  intros Hd Hrt. unfold init. rewrite Hd. simpl. split; [reflexivity|].
  destruct (is_EC2Key k) eqn:Ec; [|reflexivity].
  destruct (Hrt eq_refl) as (wire & He & Hw). rewrite He. simpl.
  now rewrite Hw.
Qed.

(** ** The name spaces of a document *)

(** X13. When [new] returns an envelope, its documents answer the
    elements of the batch one for one, and for each of them the name spaces
    come from the disclosure map of the MSO issuer built on that element's
    data, read after [sign()]; every name space of the map holds a dict.
    For a real dict (no key twice) [issuerSigned.nameSpaces] has the same
    name spaces in the same order, and each maps to the list with one entry
    per digest, in the digests' order, the entry being the value line 90
    builds, [CBORTag(24, {digestID: value})]. Nothing is sorted, merged or
    dropped. *)
Theorem new_nameSpaces_tagged data devicekeyinfo doctype s env s' :
  new data devicekeyinfo doctype s = (Ok env, s') ->
  exists docs documents,
    py_iter (normalize_data data (doctype_arg doctype)) = Ok docs /\
    py_getitem env "documents" = Ok (PList documents) /\
    Forall2 (fun doc document =>
               exists attrs w0 msoi w1 mso w2 dmap docType nameSpaces issuerAuth,
                 py_getitem doc "data" = Ok attrs /\
                 MsoIssuer attrs (private_key (self s)) w0 = (inr msoi, w1) /\
                 MsoIssuer_sign msoi w1 = (inr mso, w2) /\
                 MsoIssuer_disclosure_map msoi w2 = PDict (as_items dmap) /\
                 document = document_of docType nameSpaces issuerAuth /\
                 (dict_wf (as_items dmap) -> nameSpaces = reencode dmap))
            docs documents.
Proof.
  intros H. apply new_ok in H.
  destruct H as (dki & docs & documents & s1 & _ & Hi & Hf & -> & _).
  exists docs, documents. split; [exact Hi|]. split; [reflexivity|].
  apply for_docs_ok in Hf. destruct Hf as (news & -> & HF). simpl.
  eapply Forall2_impl; [|exact HF]. clear. simpl.
  intros doc d (s1 & s2 & Hs & Hd).
  apply make_document_ok in Hd.
  destruct Hd as (attrs & msoi & w1 & mso & w2 & docType & items & nameSpaces
                  & issuerAuth & Ha & Hm & Hg & _ & Hi & Hn & _ & -> & _).
  destruct (MsoIssuer_disclosure_map msoi w2) as [| | | | | |dm|] eqn:Edm;
    simpl in Hi; try discriminate.
  inv Hi.
  destruct (nameSpaces_of_ok _ _ _ Hn) as [dmap ->].
  rewrite Hs in Hm.
  exists attrs, (world s1), msoi, w1, mso, w2, dmap, docType, nameSpaces,
    issuerAuth.
  repeat split; auto.
  intros Hwf. rewrite nameSpaces_of_wf in Hn by exact Hwf.
  now inv Hn.
Qed.

End Issuer.

Arguments Ok {ExtExn A} a.
Arguments Raise {ExtExn A} e.
Arguments KeyError {ExtExn} k.
Arguments TypeError {ExtExn}.
Arguments AttributeError {ExtExn}.
Arguments MissingPrivateKey {ExtExn} msg.
Arguments External {ExtExn} e.
Arguments Val {K} v.
Arguments KeyObj {K} k.
Arguments mkIssuer {K} version status private_key signed.
Arguments mkState {K World} self world.
Arguments self {K World} s.
Arguments world {K World} s.
Arguments signed {K} m.
Arguments with_signed {K World} s v.

(** * The issuer run on the stand-in collaborators *)

Abbreviation stub_init :=
  (init Stub.ExtExn Stub.K Stub.is_EC2Key Stub.CoseKey_from_dict
        Stub.CoseKey_encode Stub.CoseKey_decode).
Abbreviation stub_new :=
  (new Stub.ExtExn Stub.K Stub.CoseKey_from_dict Stub.World Stub.MsoIssuerObj
       Stub.MsoObj Stub.MsoIssuer Stub.MsoIssuer_sign
       Stub.MsoIssuer_disclosure_map Stub.Mso_encode).
Abbreviation stub_for_docs :=
  (for_docs Stub.ExtExn Stub.K Stub.World Stub.MsoIssuerObj Stub.MsoObj
            Stub.MsoIssuer Stub.MsoIssuer_sign Stub.MsoIssuer_disclosure_map
            Stub.Mso_encode).
Abbreviation stub_dump := (dump Stub.ExtExn Stub.K Stub.World).
Abbreviation stub_dumps := (dumps Stub.ExtExn Stub.K Stub.World).

(** A key object that is not an [EC2Key], the issuer built from it, and the
    state it starts in. *)
Abbreviation okp_key := ((false, [x01; x02]) : Stub.K).
Abbreviation fresh_issuer := (mkIssuer "1.0" 0 okp_key (PDict [])).
Abbreviation fresh_state := (mkState fresh_issuer (0 : Stub.World)).

Abbreviation mdl := (PStr "org.iso.18013.5.1.mDL").
Abbreviation mdl_doc :=
  (PDict [(KStr "doctype", mdl); (KStr "data", Stub.mdl_data)]).
Abbreviation given_name_item :=
  (KInt 0, PDict [(KStr "given_name", PStr "ALICE")]).

(** Evaluates a run of the issuer on the stand-in collaborators. *)
Ltac run := cbv; reflexivity.

Example stub_init_fresh : stub_init (KeyObj okp_key) = Ok fresh_issuer.
Proof. reflexivity. Qed.

(** The mDL scenario: one document, one name space, an entry per
    attribute, and hexadecimal text of even length. *)
Example stub_new_mdl :
  exists issuerAuth s',
    stub_new Stub.mdl_data (Val (PDict Stub.ec2_params)) (Some mdl) fresh_state =
    (Ok (envelope "1.0"
           [document_of mdl
              [(KStr "org.iso.18013.5.1",
                PList [PTag 24 (PDict [given_name_item]);
                       PTag 24 (PDict [(KInt 1,
                                        PDict [(KStr "family_name",
                                                PStr "SMITH")])])])]
              issuerAuth] 0), s') /\
    exists text, stub_dumps s' = (Ok text, s') /\
                 text <> [] /\ Nat.even (List.length text) = true.
Proof.
  eexists. eexists. split; [run|].
  eexists. split; [run|]. split; [discriminate | reflexivity].
Qed.

(** C1 (defect of the code). In the mDL run the entry of digest 0 is
    [CBORTag(24, {0: {"given_name": "ALICE"}})]: tag 24, the tag of an
    encoded CBOR data item, is put around the mapping itself. The claim
    wants it around the byte string that holds the mapping's encoding; the
    entry is not that value, nor tag 24 around any byte string, and in the
    bytes [dump] emits the tag head [d8 18] is followed by the map, where a
    byte string head ([54], twenty bytes) would come first. *)
Lemma new_entry_not_encoded_bytes :
  exists entry rest issuerAuth s',
    stub_new Stub.mdl_data (KeyObj okp_key) (Some mdl) fresh_state =
    (Ok (PDict [(KStr "version", PStr "1.0");
                (KStr "documents",
                 PList [document_of mdl
                          [(KStr "org.iso.18013.5.1", PList (entry :: rest))]
                          issuerAuth]);
                (KStr "status", PInt 0)]), s') /\
    entry = PTag 24 (PDict [given_name_item]) /\
    entry <> encoded_cbor_item given_name_item /\
    (forall b, entry <> PTag 24 (PBytes b)) /\
    cbor2_dumps entry = [xd8; x18] ++ cbor2_dumps (PDict [given_name_item]) /\
    cbor2_dumps (encoded_cbor_item given_name_item) =
    [xd8; x18; x54] ++ cbor2_dumps (PDict [given_name_item]).
Proof.
  eexists. eexists. eexists. eexists.
  split; [run|]. split; [reflexivity|].
  split; [discriminate|]. split; [intros b; discriminate|].
  split; reflexivity.
Qed.

Lemma new_nameSpaces_tagged_witness :
  exists env s',
    stub_new Stub.mdl_data (KeyObj okp_key) (Some mdl) fresh_state = (Ok env, s') /\
    exists docs documents,
      py_iter Stub.ExtExn (normalize_data Stub.mdl_data mdl) = Ok docs /\
      py_getitem Stub.ExtExn env "documents" = Ok (PList documents) /\
      Forall2 (fun doc document =>
                 exists attrs w0 msoi w1 mso w2 dmap docType nameSpaces issuerAuth,
                   py_getitem Stub.ExtExn doc "data" = Ok attrs /\
                   Stub.MsoIssuer attrs okp_key w0 = (inr msoi, w1) /\
                   Stub.MsoIssuer_sign msoi w1 = (inr mso, w2) /\
                   Stub.MsoIssuer_disclosure_map msoi w2 = PDict (as_items dmap) /\
                   document = document_of docType nameSpaces issuerAuth /\
                   (dict_wf (as_items dmap) -> nameSpaces = reencode dmap))
              docs documents.
Proof.
  eexists. eexists. split; [run|].
  apply (new_nameSpaces_tagged Stub.ExtExn Stub.K Stub.CoseKey_from_dict
           Stub.World Stub.MsoIssuerObj Stub.MsoObj Stub.MsoIssuer
           Stub.MsoIssuer_sign Stub.MsoIssuer_disclosure_map Stub.Mso_encode
           Stub.mdl_data (KeyObj okp_key) (Some mdl) fresh_state _ _ eq_refl).
Defined.

Abbreviation other_doc :=
  (PDict [(KStr "doctype", PStr "org.example.pass"); (KStr "data", Stub.mdl_data)]).
Abbreviation bad_data_doc :=
  (PDict [(KStr "doctype", mdl); (KStr "data", PInt 5)]).
Abbreviation no_data_doc := (PDict [(KStr "doctype", mdl)]).
Abbreviation no_doctype_doc := (PDict [(KStr "data", Stub.mdl_data)]).

Lemma new_batch_order_witness :
  exists env s',
    stub_new (PList [other_doc; mdl_doc]) (KeyObj okp_key) None fresh_state =
    (Ok env, s') /\
    exists documents,
      env = PDict [(KStr "version", PStr "1.0");
                   (KStr "documents", PList documents);
                   (KStr "status", PInt 0)] /\
      py_getitem Stub.ExtExn env "documents" = Ok (PList documents) /\
      List.length documents = 2%nat /\
      forall i, (i < 2)%nat ->
        exists dt,
          py_getitem Stub.ExtExn (nth i [other_doc; mdl_doc] PNone) "doctype" = Ok dt /\
          py_getitem Stub.ExtExn (nth i documents PNone) "docType" = Ok dt.
Proof.
  eexists. eexists. split; [run|].
  apply (proj1 (new_batch_order Stub.ExtExn Stub.K Stub.CoseKey_from_dict
                  Stub.World Stub.MsoIssuerObj Stub.MsoObj Stub.MsoIssuer
                  Stub.MsoIssuer_sign Stub.MsoIssuer_disclosure_map
                  Stub.Mso_encode [other_doc; mdl_doc] (KeyObj okp_key) None
                  fresh_state) _ _ eq_refl).
Defined.

Lemma new_replaces_envelope_witness :
  exists envA s1 envB s2,
    stub_new (PList [other_doc; mdl_doc]) (KeyObj okp_key) None fresh_state =
    (Ok envA, s1) /\
    stub_new (PList [mdl_doc]) (KeyObj okp_key) None s1 = (Ok envB, s2) /\
    exists documents,
      envB = PDict [(KStr "version", PStr "1.0");
                    (KStr "documents", PList documents);
                    (KStr "status", PInt 0)] /\
      signed (self s2) = envB /\
      py_getitem Stub.ExtExn (signed (self s2)) "documents" = Ok (PList documents) /\
      (forall docs, PList [mdl_doc] = PList docs ->
                    List.length documents = List.length docs) /\
      (forall d, PList [mdl_doc] = PDict d -> List.length documents = 1%nat) /\
      (forall old,
         fst (stub_new (PList [mdl_doc]) (KeyObj okp_key) None (with_signed s1 old))
         = Ok envB).
Proof.
  eexists. eexists. eexists. eexists.
  split; [run|]. split; [run|].
  eapply (new_replaces_envelope Stub.ExtExn Stub.K Stub.is_EC2Key
            Stub.CoseKey_from_dict Stub.CoseKey_encode Stub.CoseKey_decode
            Stub.World Stub.MsoIssuerObj Stub.MsoObj Stub.MsoIssuer
            Stub.MsoIssuer_sign Stub.MsoIssuer_disclosure_map Stub.Mso_encode
            _ (PList [mdl_doc]) (KeyObj okp_key) None).
  - eapply reach_new with (s := fresh_state) (data := PList [other_doc; mdl_doc])
                          (devicekeyinfo := KeyObj okp_key) (doctype := None).
    + apply reach_init with (private_key := KeyObj okp_key). reflexivity.
    + run.
  - run.
Defined.

Lemma init_normalizes_key_witness :
  stub_init (Val (PDict Stub.ec2_params)) =
  Ok (mkIssuer "1.0" 0 (true, cbor2_dumps (PDict Stub.ec2_params)) (PDict [])) /\
  stub_init (KeyObj ((true, [x05]) : Stub.K)) =
  Ok (mkIssuer "1.0" 0 (true, [x05]) (PDict [])) /\
  stub_init (KeyObj ((true, []) : Stub.K)) = Raise (External "nothing to decode") /\
  stub_init (KeyObj okp_key) = Ok fresh_issuer /\
  stub_init (Val PNone) = Raise (MissingPrivateKey "You must provide a private key").
Proof.
  destruct (init_normalizes_key Stub.ExtExn Stub.K Stub.is_EC2Key
              Stub.CoseKey_from_dict Stub.CoseKey_encode Stub.CoseKey_decode)
    as (Hdict & Hec2 & Hcose & Hother).
  split; [rewrite Hdict; reflexivity|].
  split; [rewrite Hec2 by reflexivity; reflexivity|].
  split; [rewrite Hec2 by reflexivity; reflexivity|].
  split; [apply Hcose; reflexivity|].
  apply Hother. intros d. discriminate.
Defined.

(** C7, as worded, fails: on the issuer just built [dump] neither raises
    nor returns the encoding of [{version: "1.0", documents: [], status: 0}];
    it returns the byte [0xA0]. *)
Lemma dump_before_new_not_default :
  stub_init (KeyObj okp_key) = Ok fresh_issuer /\
  fst (stub_dump fresh_state) = Ok [xa0] /\
  ~ ((exists e, fst (stub_dump fresh_state) = Raise e) \/
     fst (stub_dump fresh_state) = Ok (cbor2_dumps default_envelope)).
Proof.
  split; [reflexivity|]. split; [reflexivity|].
  intros [[e H] | H]; cbv in H; discriminate.
Qed.

Lemma dump_before_new_witness :
  stub_dump fresh_state = (Ok [xa0], fresh_state) /\
  stub_dumps fresh_state = (Ok [x61; x30], fresh_state) /\
  signed fresh_issuer = PDict [] /\
  cbor2_dumps default_envelope <> [xa0].
Proof.
  apply (dump_before_new Stub.ExtExn Stub.K Stub.is_EC2Key
           Stub.CoseKey_from_dict Stub.CoseKey_encode Stub.CoseKey_decode
           Stub.World (KeyObj okp_key) fresh_issuer 0 eq_refl).
Defined.

Lemma new_failure_atomic_witness :
  exists w',
    stub_new (PList [mdl_doc; bad_data_doc; other_doc]) (KeyObj okp_key) None
             fresh_state =
    (Raise (External "attribute data must be a mapping"),
     mkState fresh_issuer w').
Proof.
  eexists.
  refine (proj1 (new_failure_atomic Stub.ExtExn Stub.K Stub.CoseKey_from_dict
                   Stub.World Stub.MsoIssuerObj Stub.MsoObj Stub.MsoIssuer
                   Stub.MsoIssuer_sign Stub.MsoIssuer_disclosure_map
                   Stub.Mso_encode
                   (PList [mdl_doc; bad_data_doc; other_doc]) (KeyObj okp_key)
                   None fresh_state (KeyObj okp_key) [mdl_doc] bad_data_doc
                   [other_doc] _ _ "attribute data must be a mapping" _
                   eq_refl eq_refl _ _)).
  - run.
  - exists (PInt 5). split; [reflexivity|]. left. cbv. reflexivity.
Defined.

Lemma new_ignores_devicekeyinfo_witness :
  stub_new Stub.mdl_data (Val (PDict Stub.ec2_params)) (Some mdl) fresh_state =
  stub_new Stub.mdl_data (KeyObj okp_key) (Some mdl) fresh_state.
Proof.
  apply (new_ignores_devicekeyinfo Stub.ExtExn Stub.K Stub.CoseKey_from_dict
           Stub.World Stub.MsoIssuerObj Stub.MsoObj Stub.MsoIssuer
           Stub.MsoIssuer_sign Stub.MsoIssuer_disclosure_map Stub.Mso_encode
           Stub.mdl_data (Some mdl) fresh_state
           (Val (PDict Stub.ec2_params)) (KeyObj okp_key)
           (KeyObj (true, cbor2_dumps (PDict Stub.ec2_params))) (KeyObj okp_key));
    reflexivity.
Defined.

(** C10, as worded, fails: the one element [{"data": 5}] lacks
    ["doctype"], yet [new] raises no key-lookup error: the MSO issuer
    refuses the data first, and its exception is what [new] raises. *)
Lemma new_missing_doctype_not_keyerror :
  dict_get [(KStr "data", PInt 5)] (KStr "doctype") = None /\
  exists s',
    stub_new (PList [PDict [(KStr "data", PInt 5)]]) (KeyObj okp_key) None
             fresh_state =
    (Raise (External "attribute data must be a mapping"), s') /\
    forall k, @External Stub.ExtExn "attribute data must be a mapping" <> KeyError k.
Proof.
  split; [reflexivity|]. eexists. split; [run|]. intros k. discriminate.
Qed.

Lemma new_unguarded_lookups_witness :
  (exists s1,
     stub_new (PList [mdl_doc; no_data_doc]) (KeyObj okp_key) None fresh_state =
     (Raise (KeyError (KStr "data")), s1)) /\
  (exists s2,
     stub_new (PList [mdl_doc; no_doctype_doc]) (KeyObj okp_key) None fresh_state =
     (Raise (KeyError (KStr "doctype")), s2)).
Proof.
  split.
  - eexists.
    refine (proj1 (new_unguarded_lookups Stub.ExtExn Stub.K
                     Stub.CoseKey_from_dict Stub.World Stub.MsoIssuerObj
                     Stub.MsoObj Stub.MsoIssuer Stub.MsoIssuer_sign
                     Stub.MsoIssuer_disclosure_map Stub.Mso_encode
                     [mdl_doc; no_data_doc] (KeyObj okp_key) None fresh_state
                     (KeyObj okp_key) eq_refl)
                  [mdl_doc] [(KStr "doctype", mdl)] [] _ _ eq_refl _ eq_refl).
    run.
  - eexists.
    refine (proj1 (proj2 (new_unguarded_lookups Stub.ExtExn Stub.K
                     Stub.CoseKey_from_dict Stub.World Stub.MsoIssuerObj
                     Stub.MsoObj Stub.MsoIssuer Stub.MsoIssuer_sign
                     Stub.MsoIssuer_disclosure_map Stub.Mso_encode
                     [mdl_doc; no_doctype_doc] (KeyObj okp_key) None fresh_state
                     (KeyObj okp_key) eq_refl))
                  [mdl_doc] [(KStr "data", Stub.mdl_data)] [] _ _
                  Stub.mdl_data _ _ _ _ eq_refl _ eq_refl eq_refl _ _).
    + run.
    + cbv. reflexivity.
    + cbv. reflexivity.
Defined.

Lemma new_single_mapping_witness :
  stub_new Stub.mdl_data (KeyObj okp_key) (Some mdl) fresh_state =
  stub_new (PList [PDict [(KStr "doctype", mdl); (KStr "data", Stub.mdl_data)]])
           (KeyObj okp_key) (Some mdl) fresh_state /\
  exists env s',
    stub_new Stub.mdl_data (KeyObj okp_key) (Some mdl) fresh_state = (Ok env, s') /\
    exists document nameSpaces issuerAuth w env0 document0,
      py_getitem Stub.ExtExn env "documents" = Ok (PList [document]) /\
      py_getitem Stub.ExtExn document "docType" = Ok mdl /\
      document = document_of mdl nameSpaces issuerAuth /\
      stub_new Stub.mdl_data (KeyObj okp_key) None fresh_state =
      (Ok env0, with_signed (mkState fresh_issuer w) env0) /\
      py_getitem Stub.ExtExn env0 "documents" = Ok (PList [document0]) /\
      py_getitem Stub.ExtExn document0 "docType" = Ok PNone /\
      document0 = document_of PNone nameSpaces issuerAuth.
Proof.
  destruct (new_single_mapping Stub.ExtExn Stub.K Stub.CoseKey_from_dict
              Stub.World Stub.MsoIssuerObj Stub.MsoObj Stub.MsoIssuer
              Stub.MsoIssuer_sign Stub.MsoIssuer_disclosure_map Stub.Mso_encode
              Stub.mdl_namespaces (KeyObj okp_key) fresh_state)
    as (Hwrap & _ & Hone & _).
  split; [exact (Hwrap mdl)|].
  eexists. eexists. split; [run|].
  apply (Hone mdl _ _ eq_refl).
Defined.

(** * The further properties on the stand-in collaborators *)

Abbreviation stub_issues :=
  (issues Stub.ExtExn Stub.K Stub.World Stub.MsoIssuerObj Stub.MsoObj
          Stub.MsoIssuer Stub.MsoIssuer_sign Stub.MsoIssuer_disclosure_map
          Stub.Mso_encode).
Lemma new_stores_what_it_returns_witness :
  exists env s',
    stub_new (PList [mdl_doc]) (KeyObj okp_key) None fresh_state = (Ok env, s') /\
    private_key _ (self s') = okp_key /\
    version _ (self s') = "1.0" /\
    status _ (self s') = 0 /\
    signed (self s') = env.
Proof.
  eexists. eexists. split; [run|].
  apply (new_stores_what_it_returns Stub.ExtExn Stub.K Stub.CoseKey_from_dict
           Stub.World Stub.MsoIssuerObj Stub.MsoObj Stub.MsoIssuer
           Stub.MsoIssuer_sign Stub.MsoIssuer_disclosure_map Stub.Mso_encode
           (PList [mdl_doc]) (KeyObj okp_key) None fresh_state (Ok _) _ eq_refl).
Defined.

Lemma stored_envelope_invariant_witness :
  exists env s',
    stub_new (PList [mdl_doc; other_doc]) (KeyObj okp_key) None fresh_state =
    (Ok env, s') /\
    version _ (self s') = "1.0" /\ status _ (self s') = 0 /\
    stored_ok (signed (self s')).
Proof.
  eexists. eexists. split; [run|].
  apply (stored_envelope_invariant Stub.ExtExn Stub.K Stub.is_EC2Key
           Stub.CoseKey_from_dict Stub.CoseKey_encode Stub.CoseKey_decode
           Stub.World Stub.MsoIssuerObj Stub.MsoObj Stub.MsoIssuer
           Stub.MsoIssuer_sign Stub.MsoIssuer_disclosure_map Stub.Mso_encode).
  eapply reach_new with (s := fresh_state) (data := PList [mdl_doc; other_doc])
                        (devicekeyinfo := KeyObj okp_key) (doctype := None).
  - apply reach_init with (private_key := KeyObj okp_key). reflexivity.
  - run.
Defined.

Lemma dump_after_new_witness :
  exists env s',
    stub_new (PList [mdl_doc]) (KeyObj okp_key) None fresh_state = (Ok env, s') /\
    stub_dump s' = (Ok (cbor2_dumps env), s') /\
    stub_dumps s' = (Ok (hexlify (cbor2_dumps env)), s').
Proof.
  eexists. eexists. split; [run|].
  destruct (dump_after_new Stub.ExtExn Stub.K Stub.CoseKey_from_dict
              Stub.World Stub.MsoIssuerObj Stub.MsoObj Stub.MsoIssuer
              Stub.MsoIssuer_sign Stub.MsoIssuer_disclosure_map Stub.Mso_encode
              (PList [mdl_doc]) (KeyObj okp_key) None fresh_state (Ok _) _ eq_refl)
    as (Hd & Hh & _).
  split; [exact Hd | exact Hh].
Defined.

Lemma new_batch_concat_witness :
  exists envA sA envB sB,
    stub_new (PList [mdl_doc]) (KeyObj okp_key) None fresh_state = (Ok envA, sA) /\
    stub_new (PList [other_doc]) (KeyObj okp_key) None sA = (Ok envB, sB) /\
    exists docsA docsB env,
      py_getitem Stub.ExtExn envA "documents" = Ok (PList docsA) /\
      py_getitem Stub.ExtExn envB "documents" = Ok (PList docsB) /\
      stub_new (PList ([mdl_doc] ++ [other_doc])) (KeyObj okp_key) None fresh_state =
      (Ok env, with_signed sB env) /\
      py_getitem Stub.ExtExn env "documents" = Ok (PList (docsA ++ docsB)) /\
      env = PDict [(KStr "version", PStr "1.0");
                   (KStr "documents", PList (docsA ++ docsB));
                   (KStr "status", PInt 0)].
Proof.
  eexists. eexists. eexists. eexists.
  split; [run|]. split; [run|].
  apply (new_batch_concat Stub.ExtExn Stub.K Stub.CoseKey_from_dict
           Stub.World Stub.MsoIssuerObj Stub.MsoObj Stub.MsoIssuer
           Stub.MsoIssuer_sign Stub.MsoIssuer_disclosure_map Stub.Mso_encode
           [mdl_doc] [other_doc] (KeyObj okp_key) None (KeyObj okp_key) None
           fresh_state _ _ _ _ eq_refl eq_refl).
Defined.

Lemma new_devicekeyinfo_checked_first_witness :
  stub_new Stub.mdl_data (Val (PDict [])) None fresh_state =
  (Raise (External "COSE key without a key type"), fresh_state) /\
  stub_new Stub.mdl_data (Val PNone) None fresh_state =
  stub_new Stub.mdl_data (KeyObj okp_key) None fresh_state.
Proof.
  destruct (new_devicekeyinfo_checked_first Stub.ExtExn Stub.K
              Stub.CoseKey_from_dict Stub.World Stub.MsoIssuerObj Stub.MsoObj
              Stub.MsoIssuer Stub.MsoIssuer_sign Stub.MsoIssuer_disclosure_map
              Stub.Mso_encode Stub.mdl_data None fresh_state) as [Hbad Hany].
  split.
  - apply Hbad. reflexivity.
  - apply Hany. intros d. discriminate.
Defined.

Lemma new_data_of_wrong_type_witness :
  stub_new PNone (KeyObj okp_key) None fresh_state = (Raise TypeError, fresh_state) /\
  stub_new (PStr "") (KeyObj okp_key) None fresh_state =
  (Ok (PDict [(KStr "version", PStr "1.0"); (KStr "documents", PList []);
              (KStr "status", PInt 0)]),
   with_signed fresh_state
     (PDict [(KStr "version", PStr "1.0"); (KStr "documents", PList []);
             (KStr "status", PInt 0)])) /\
  stub_new (PStr "mdl") (KeyObj okp_key) None fresh_state =
  (Raise TypeError, fresh_state).
Proof.
  pose proof (fun data =>
    new_data_of_wrong_type Stub.ExtExn Stub.K Stub.CoseKey_from_dict
      Stub.World Stub.MsoIssuerObj Stub.MsoObj Stub.MsoIssuer
      Stub.MsoIssuer_sign Stub.MsoIssuer_disclosure_map Stub.Mso_encode
      data (KeyObj okp_key) None fresh_state (KeyObj okp_key) eq_refl) as H.
  split; [exact (H PNone)|]. split; [exact (H (PStr ""))|exact (H (PStr "mdl"))].
Defined.

Lemma new_element_not_a_dict_witness :
  exists s1,
    stub_new (PList [mdl_doc; PInt 3; other_doc]) (KeyObj okp_key) None fresh_state =
    (Raise TypeError, s1).
Proof.
  eexists.
  refine (new_element_not_a_dict Stub.ExtExn Stub.K Stub.CoseKey_from_dict
            Stub.World Stub.MsoIssuerObj Stub.MsoObj Stub.MsoIssuer
            Stub.MsoIssuer_sign Stub.MsoIssuer_disclosure_map Stub.Mso_encode
            [mdl_doc; PInt 3; other_doc] (KeyObj okp_key) None fresh_state
            (KeyObj okp_key) [mdl_doc] (PInt 3) [other_doc] _ _
            eq_refl eq_refl _ _).
  - run.
  - intros d. discriminate.
Defined.

(** Two digests in the other order give other name spaces. *)
Lemma nameSpaces_determine_disclosure_map_witness :
  let d1 := [(KStr "ns", [(KInt 0, PStr "a"); (KInt 1, PStr "b")])] in
  let d2 := [(KStr "ns", [(KInt 1, PStr "b"); (KInt 0, PStr "a")])] in
  nameSpaces_of Stub.ExtExn (as_items d1) [] <>
  nameSpaces_of Stub.ExtExn (as_items d2) [].
Proof.
  intros d1 d2 H.
  assert (Hwf : forall d : list (pykey * pydict),
             dict_keys (as_items d) = [KStr "ns"] -> dict_wf (as_items d)).
  { intros d Hd. unfold dict_wf. rewrite Hd. repeat constructor. simpl. tauto. }
  assert (E : d1 = d2).
  { apply (nameSpaces_determine_disclosure_map Stub.ExtExn d1 d2 (reencode d2)).
    - apply Hwf. reflexivity.
    - apply Hwf. reflexivity.
    - rewrite H. reflexivity.
    - reflexivity. }
  discriminate E.
Defined.

Lemma new_exceptions_witness :
  exists e s',
    stub_new (PList [no_doctype_doc]) (KeyObj okp_key) None fresh_state =
    (Raise e, s') /\
    (e = KeyError (KStr "data") \/ e = KeyError (KStr "doctype") \/
     e = TypeError \/ e = AttributeError \/ exists x, e = External x).
Proof.
  eexists. eexists. split; [run|].
  apply (new_exceptions Stub.ExtExn Stub.K Stub.CoseKey_from_dict
           Stub.World Stub.MsoIssuerObj Stub.MsoObj Stub.MsoIssuer
           Stub.MsoIssuer_sign Stub.MsoIssuer_disclosure_map Stub.Mso_encode
           (PList [no_doctype_doc]) (KeyObj okp_key) None fresh_state _ _ eq_refl).
Defined.

Lemma new_returns_iff_witness :
  exists env s',
    stub_new (PList [mdl_doc; other_doc]) (KeyObj okp_key) None fresh_state =
    (Ok env, s') /\
    exists dki docs documents w',
      normalize_devicekeyinfo Stub.ExtExn Stub.K Stub.CoseKey_from_dict
                              (KeyObj okp_key) = Ok dki /\
      py_iter Stub.ExtExn (PList [mdl_doc; other_doc]) = Ok docs /\
      stub_issues okp_key docs 0 documents w' /\
      env = PDict [(KStr "version", PStr "1.0");
                   (KStr "documents", PList documents);
                   (KStr "status", PInt 0)] /\
      s' = with_signed (mkState fresh_issuer w') env.
Proof.
  eexists. eexists. split; [run|].
  apply (proj1 (new_returns_iff Stub.ExtExn Stub.K Stub.CoseKey_from_dict
                  Stub.World Stub.MsoIssuerObj Stub.MsoObj Stub.MsoIssuer
                  Stub.MsoIssuer_sign Stub.MsoIssuer_disclosure_map
                  Stub.Mso_encode (PList [mdl_doc; other_doc]) (KeyObj okp_key)
                  None fresh_state _ _) eq_refl).
Defined.

Lemma init_key_shapes_agree_witness :
  exists k,
    Stub.CoseKey_from_dict Stub.ec2_params = inr k /\
    Stub.is_EC2Key k = true /\
    stub_init (Val (PDict Stub.ec2_params)) = Ok (mkIssuer "1.0" 0 k (PDict [])) /\
    stub_init (KeyObj k) = stub_init (Val (PDict Stub.ec2_params)).
Proof.
  eexists. split; [run|]. split; [reflexivity|].
  apply (init_key_shapes_agree Stub.ExtExn Stub.K Stub.is_EC2Key
           Stub.CoseKey_from_dict Stub.CoseKey_encode Stub.CoseKey_decode
           Stub.ec2_params).
  - reflexivity.
  - intros _. eexists. split; reflexivity.
Defined.
